(** * chanopt: detection and classification of channel generator idioms

    A shallow embedding of [pkg/analyzer] (run, detect, classify and their
    helpers) over a model of the parts of [go/token], [go/ast] and
    [go/types] that the analyzer reads, followed by the properties of the
    engine that are proved about it. *)

From Stdlib Require Import ZArith List String Ascii Bool Lia PrimFloat.
Import ListNotations.
Local Open Scope string_scope.
Local Open Scope list_scope.
Local Open Scope Z_scope.

Set Warnings "-inexact-float,-register-all".

(* ================================================================== *)
(** ** go/token *)

Module token.

(** [token.Pos]: an offset into the file set; [NoPos] is the zero value. *)
Definition Pos := Z.
Definition NoPos : Pos := 0.
Definition IsValid (p : Pos) : bool := negb (p =? NoPos).

(** [token.Token]: literal classes, operators and the keywords that occur
    in a [Tok] field of a syntax node. *)
Inductive Token : Type :=
| ILLEGAL | IDENT | INT | FLOAT | IMAG | CHAR | STRING
| ADD | SUB | MUL | QUO | REM
| AND | OR | XOR | SHL | SHR | AND_NOT
| ADD_ASSIGN | SUB_ASSIGN | MUL_ASSIGN | QUO_ASSIGN | REM_ASSIGN
| AND_ASSIGN | OR_ASSIGN | XOR_ASSIGN | SHL_ASSIGN | SHR_ASSIGN
| AND_NOT_ASSIGN
| LAND | LOR | ARROW | INC | DEC
| EQL | LSS | GTR | ASSIGN | NOT
| NEQ | LEQ | GEQ | DEFINE | TILDE
| BREAK | CONTINUE | FALLTHROUGH | GOTO
| CONST | IMPORT | TYPE | VAR.

End token.

(* ================================================================== *)
(** ** go/ast *)

Module ast.

(** [*ast.Ident] and [*ast.BasicLit] are leaves; their position is part
    of the node, so two occurrences of one name are two nodes. *)
Record ident : Type := mkIdent { NamePos : token.Pos; Name : string }.

Record basicLit : Type :=
  mkBasicLit { ValuePos : token.Pos; Kind : token.Token; Value : string }.

Inductive ChanDir : Type := SEND | RECV | SEND_RECV.

(** Expressions, statements and the struct types they point to.  A field
    that go/parser may leave nil is an [option]; a [*ast.BlockStmt] field
    that go/parser always allocates (the body of a function literal, of a
    loop, of a select ...) is the block's statement list.  Token
    positions are kept on the expression nodes whose [Pos()] reads one;
    statements keep none, the analyzer only asks an assignment for its
    position and that is the position of its first left-hand side. *)
Inductive expr : Type :=
| BadExpr (From : token.Pos)
| Ident (id : ident)
| Ellipsis (EllipsisPos : token.Pos) (Elt : option expr)
| BasicLit (lit : basicLit)
| FuncLit (fl : funcLit)
| CompositeLit (Type_ : option expr) (Lbrace : token.Pos) (Elts : list expr)
| ParenExpr (Lparen : token.Pos) (X : expr)
| SelectorExpr (X : expr) (Sel : ident)
| IndexExpr (X : expr) (Index : expr)
| IndexListExpr (X : expr) (Indices : list expr)
| SliceExpr (X : expr) (Low High Max : option expr)
| TypeAssertExpr (X : expr) (Type_ : option expr)
| CallExpr (call : callExpr)
| StarExpr (Star : token.Pos) (X : expr)
| UnaryExpr (OpPos : token.Pos) (Op : token.Token) (X : expr)
| BinaryExpr (X : expr) (Op : token.Token) (Y : expr)
| KeyValueExpr (Key : expr) (Value : expr)
| ArrayType (Lbrack : token.Pos) (Len : option expr) (Elt : expr)
| StructType (Struct : token.Pos) (Fields : fieldList)
| FuncType (ft : funcType)
| InterfaceType (Interface : token.Pos) (Methods : fieldList)
| MapType (Map : token.Pos) (Key : expr) (Value : expr)
| ChanType (Begin : token.Pos) (Dir : ChanDir) (Value : expr)
with funcLit : Type :=
| mkFuncLit (Type_ : funcType) (Body : list stmt)
with callExpr : Type :=
| mkCallExpr (Fun : expr) (Args : list expr)
with funcType : Type :=
| mkFuncType (Func : token.Pos) (TypeParams Params Results : option fieldList)
with fieldList : Type :=
| mkFieldList (Opening : token.Pos) (List : list field)
with field : Type :=
| mkField (Names : list ident) (Type_ : option expr) (Tag : option basicLit)
with stmt : Type :=
| BadStmt (From : token.Pos)
| DeclStmt (Decl : genDecl)
| EmptyStmt
| LabeledStmt (Label : ident) (Stmt : stmt)
| ExprStmt (X : expr)
| SendStmt (s : sendStmt)
| IncDecStmt (X : expr) (Tok : token.Token)
| AssignStmt (s : assignStmt)
| GoStmt (s : goStmt)
| DeferStmt (Call : callExpr)
| ReturnStmt (Results : list expr)
| BranchStmt (Tok : token.Token) (Label : option ident)
| BlockStmt (List : list stmt)
| IfStmt (Init : option stmt) (Cond : expr) (Body : list stmt)
         (Else : option stmt)
| CaseClause (List : list expr) (Body : list stmt)
| SwitchStmt (Init : option stmt) (Tag : option expr) (Body : list stmt)
| TypeSwitchStmt (Init : option stmt) (Assign : stmt) (Body : list stmt)
| CommClause (Comm : option stmt) (Body : list stmt)
| SelectStmt (Body : list stmt)
| ForStmt (Init : option stmt) (Cond : option expr) (Post : option stmt)
          (Body : list stmt)
| RangeStmt (Key Value : option expr) (X : expr) (Body : list stmt)
with sendStmt : Type :=
| mkSendStmt (Chan : expr) (Value : expr)
with assignStmt : Type :=
| mkAssignStmt (Lhs : list expr) (Tok : token.Token) (Rhs : list expr)
with goStmt : Type :=
| mkGoStmt (Call : callExpr)
with genDecl : Type :=
| mkGenDecl (Tok : token.Token) (Specs : list spec)
with spec : Type :=
| ValueSpec (Names : list ident) (Type_ : option expr) (Values : list expr)
| TypeSpec (Name : ident) (TypeParams : option fieldList) (Type_ : expr).

(** Field selectors of the struct types. *)
Definition FuncLit_Type (fl : funcLit) : funcType :=
  match fl with mkFuncLit t _ => t end.
Definition FuncLit_Body (fl : funcLit) : list stmt :=
  match fl with mkFuncLit _ b => b end.
Definition CallExpr_Fun (c : callExpr) : expr :=
  match c with mkCallExpr f _ => f end.
Definition CallExpr_Args (c : callExpr) : list expr :=
  match c with mkCallExpr _ a => a end.
Definition FuncType_Func (t : funcType) : token.Pos :=
  match t with mkFuncType p _ _ _ => p end.
Definition FuncType_Params (t : funcType) : option fieldList :=
  match t with mkFuncType _ _ p _ => p end.
Definition FuncType_Results (t : funcType) : option fieldList :=
  match t with mkFuncType _ _ _ r => r end.
Definition FieldList_List (l : fieldList) : list field :=
  match l with mkFieldList _ fs => fs end.
Definition Field_Type (f : field) : option expr :=
  match f with mkField _ t _ => t end.
Definition SendStmt_Chan (s : sendStmt) : expr :=
  match s with mkSendStmt c _ => c end.
Definition SendStmt_Value (s : sendStmt) : expr :=
  match s with mkSendStmt _ v => v end.
Definition AssignStmt_Lhs (s : assignStmt) : list expr :=
  match s with mkAssignStmt l _ _ => l end.
Definition AssignStmt_Rhs (s : assignStmt) : list expr :=
  match s with mkAssignStmt _ _ r => r end.
Definition GoStmt_Call (s : goStmt) : callExpr :=
  match s with mkGoStmt c => c end.

(** Declarations of a file. *)
Record funcDecl : Type := mkFuncDecl {
  FuncDecl_Recv : option fieldList;
  FuncDecl_Name : ident;
  FuncDecl_Type : funcType;
  FuncDecl_Body : option (list stmt)   (* nil for an external function *)
}.

Inductive decl : Type :=
| BadDecl
| GenDecl (d : genDecl)
| FuncDecl (fn : funcDecl).

Record File : Type := mkFile { File_Name : ident; Decls : list decl }.

(** *** Positions: the [Pos()] methods *)

Fixpoint exprPos (e : expr) : token.Pos :=
  match e with
  | BadExpr p => p
  | Ident id => NamePos id
  | Ellipsis p _ => p
  | BasicLit lit => ValuePos lit
  | FuncLit (mkFuncLit t _) => funcTypePos t
  | CompositeLit (Some t) _ _ => exprPos t
  | CompositeLit None lbrace _ => lbrace
  | ParenExpr p _ => p
  | SelectorExpr x _ => exprPos x
  | IndexExpr x _ => exprPos x
  | IndexListExpr x _ => exprPos x
  | SliceExpr x _ _ _ => exprPos x
  | TypeAssertExpr x _ => exprPos x
  | CallExpr (mkCallExpr f _) => exprPos f
  | StarExpr p _ => p
  | UnaryExpr p _ _ => p
  | BinaryExpr x _ _ => exprPos x
  | KeyValueExpr k _ => exprPos k
  | ArrayType p _ _ => p
  | StructType p _ => p
  | FuncType t => funcTypePos t
  | InterfaceType p _ => p
  | MapType p _ _ => p
  | ChanType p _ _ => p
  end
with funcTypePos (t : funcType) : token.Pos :=
  match t with
  | mkFuncType func _ params _ =>
    if token.IsValid func then func
    else match params with
         | None => func
         | Some fl => fieldListPos fl
         end
  end
with fieldListPos (fl : fieldList) : token.Pos :=
  match fl with
  | mkFieldList opening fs =>
    if token.IsValid opening then opening
    else match fs with
         | f :: _ => fieldPos f
         | [] => token.NoPos
         end
  end
with fieldPos (f : field) : token.Pos :=
  match f with
  | mkField (n :: _) _ _ => NamePos n
  | mkField [] (Some t) _ => exprPos t
  | mkField [] None _ => token.NoPos
  end.

(** [Pos] of an [*AssignStmt] is [s.Lhs[0].Pos()]; go/parser never builds an
    assignment without a left-hand side. *)
Definition AssignStmt_Pos (s : assignStmt) : token.Pos :=
  match AssignStmt_Lhs s with
  | e :: _ => exprPos e
  | [] => token.NoPos
  end.

(** [Pos] of a [*SendStmt] is [s.Chan.Pos()]. *)
Definition SendStmt_Pos (s : sendStmt) : token.Pos :=
  exprPos (SendStmt_Chan s).

(** *** Nodes and traversal: [ast.Node], [ast.Walk], [ast.Inspect] *)

(** The dynamic type of an [ast.Node] handed to a visitor. *)
Inductive Node : Type :=
| ExprNode (e : expr)
| StmtNode (s : stmt)
| FieldNode (f : field)
| FieldListNode (fl : fieldList)
| SpecNode (s : spec)
| GenDeclNode (d : genDecl).

(** A node with the subtrees [ast.Walk] descends into, in its order. *)
Inductive tree : Type :=
| T (n : Node) (kids : list tree).

Definition opt {A : Type} (f : A -> tree) (o : option A) : list tree :=
  match o with
  | Some a => [f a]
  | None => []
  end.

Definition identTree (id : ident) : tree := T (ExprNode (Ident id)) [].
Definition basicLitTree (l : basicLit) : tree := T (ExprNode (BasicLit l)) [].
Definition blockOf (stmtTree : stmt -> tree) (body : list stmt) : tree :=
  T (StmtNode (BlockStmt body)) (map stmtTree body).

(** The children of every node kind, as the type switch of [ast.Walk]
    lists them. *)
Fixpoint exprTree (e : expr) : tree :=
  T (ExprNode e)
    match e with
    | BadExpr _ | Ident _ | BasicLit _ => []
    | Ellipsis _ elt => opt exprTree elt
    | FuncLit fl => funcLitKids fl
    | CompositeLit t _ elts => opt exprTree t ++ map exprTree elts
    | ParenExpr _ x => [exprTree x]
    | SelectorExpr x sel => [exprTree x; identTree sel]
    | IndexExpr x i => [exprTree x; exprTree i]
    | IndexListExpr x is_ => exprTree x :: map exprTree is_
    | SliceExpr x lo hi mx =>
        exprTree x :: opt exprTree lo ++ opt exprTree hi ++ opt exprTree mx
    | TypeAssertExpr x t => exprTree x :: opt exprTree t
    | CallExpr c => callKids c
    | StarExpr _ x => [exprTree x]
    | UnaryExpr _ _ x => [exprTree x]
    | BinaryExpr x _ y => [exprTree x; exprTree y]
    | KeyValueExpr k v => [exprTree k; exprTree v]
    | ArrayType _ len elt => opt exprTree len ++ [exprTree elt]
    | StructType _ fs => [fieldListTree fs]
    | FuncType ft => funcTypeKids ft
    | InterfaceType _ ms => [fieldListTree ms]
    | MapType _ k v => [exprTree k; exprTree v]
    | ChanType _ _ v => [exprTree v]
    end
with funcLitKids (fl : funcLit) : list tree :=
  match fl with
  | mkFuncLit t body =>
      [T (ExprNode (FuncType t)) (funcTypeKids t); blockOf stmtTree body]
  end
with callKids (c : callExpr) : list tree :=
  match c with
  | mkCallExpr f args => exprTree f :: map exprTree args
  end
with funcTypeKids (t : funcType) : list tree :=
  match t with
  | mkFuncType _ tps ps rs =>
      opt fieldListTree tps ++ opt fieldListTree ps ++ opt fieldListTree rs
  end
with fieldListTree (fl : fieldList) : tree :=
  T (FieldListNode fl)
    match fl with
    | mkFieldList _ fs => map fieldTree fs
    end
with fieldTree (f : field) : tree :=
  T (FieldNode f)
    match f with
    | mkField names t tag =>
        map identTree names ++ opt exprTree t ++ opt basicLitTree tag
    end
with stmtTree (s : stmt) : tree :=
  T (StmtNode s)
    match s with
    | BadStmt _ | EmptyStmt => []
    | DeclStmt d => [genDeclTree d]
    | LabeledStmt l s' => [identTree l; stmtTree s']
    | ExprStmt x => [exprTree x]
    | SendStmt (mkSendStmt c v) => [exprTree c; exprTree v]
    | IncDecStmt x _ => [exprTree x]
    | AssignStmt (mkAssignStmt lhs _ rhs) =>
        map exprTree lhs ++ map exprTree rhs
    | GoStmt (mkGoStmt c) => [T (ExprNode (CallExpr c)) (callKids c)]
    | DeferStmt c => [T (ExprNode (CallExpr c)) (callKids c)]
    | ReturnStmt rs => map exprTree rs
    | BranchStmt _ l => opt identTree l
    | BlockStmt l => map stmtTree l
    | IfStmt init cond body els =>
        opt stmtTree init ++ [exprTree cond; blockOf stmtTree body]
          ++ opt stmtTree els
    | CaseClause l body => map exprTree l ++ map stmtTree body
    | SwitchStmt init tag body =>
        opt stmtTree init ++ opt exprTree tag ++ [blockOf stmtTree body]
    | TypeSwitchStmt init a body =>
        opt stmtTree init ++ [stmtTree a; blockOf stmtTree body]
    | CommClause comm body => opt stmtTree comm ++ map stmtTree body
    | SelectStmt body => [blockOf stmtTree body]
    | ForStmt init cond post body =>
        opt stmtTree init ++ opt exprTree cond ++ opt stmtTree post
          ++ [blockOf stmtTree body]
    | RangeStmt k v x body =>
        opt exprTree k ++ opt exprTree v ++ [exprTree x; blockOf stmtTree body]
    end
with genDeclTree (d : genDecl) : tree :=
  T (GenDeclNode d)
    match d with
    | mkGenDecl _ specs => map specTree specs
    end
with specTree (s : spec) : tree :=
  T (SpecNode s)
    match s with
    | ValueSpec names t vs =>
        map identTree names ++ opt exprTree t ++ map exprTree vs
    | TypeSpec n tps t =>
        identTree n :: opt fieldListTree tps ++ [exprTree t]
    end.

Definition blockTree (body : list stmt) : tree := blockOf stmtTree body.
Definition funcLitTree (fl : funcLit) : tree :=
  T (ExprNode (FuncLit fl)) (funcLitKids fl).

(** [ast.Inspect(root, f)]: [f] is a closure over variables of type [S];
    here it takes their value and returns it with its boolean.  It is
    called on a node, then, when it returned true, on the node's children
    and at last on nil (whose result is dropped). *)
Section Inspect.
Context {S : Type}.
Variable f : option Node -> S -> bool * S.

Fixpoint Inspect (t : tree) (s : S) : S :=
  match t with
  | T n kids =>
      let (descend, s1) := f (Some n) s in
      if descend
      then snd (f None (fold_left (fun a k => Inspect k a) kids s1))
      else s1
  end.

End Inspect.

(** All nodes of a tree, parents first. *)
Fixpoint nodes (t : tree) : list Node :=
  match t with
  | T n kids => n :: flat_map nodes kids
  end.

End ast.

(* ================================================================== *)
(** ** go/types and the analysis pass *)

Module types.

Inductive ChanDir : Type := SendRecv | SendOnly | RecvOnly.

(** [types.Type].  A defined type carries its underlying type. *)
Inductive Type_ : Type :=
| Basic (name : string)
| Array (len : Z) (elem : Type_)
| Slice (elem : Type_)
| Pointer (elem : Type_)
| Map (key : Type_) (elem : Type_)
| Chan (dir : ChanDir) (elem : Type_)
| Struct
| Signature
| Interface
| Named (name : string) (underlying : Type_).

Fixpoint Underlying (t : Type_) : Type_ :=
  match t with
  | Named _ u => Underlying u
  | _ => t
  end.

(** The type assertion of [t] to [*types.Chan]. *)
Definition isChan (t : Type_) : bool :=
  match t with
  | Chan _ _ => true
  | _ => false
  end.

Inductive VarKind : Type :=
| PackageVar | LocalVar | RecvVar | ParamVar | ResultVar | FieldVar.

(** [types.Object]: what an identifier is bound to. *)
Inductive Object : Type :=
| PkgName (imported : string)        (* [Imported().Path()] *)
| Const (typ : Type_)
| TypeName (typ : Type_)
| Var (kind : VarKind) (typ : Type_)
| Func (typ : Type_)
| Label
| Builtin
| Nil.

Definition Object_Type (o : Object) : Type_ :=
  match o with
  | Const t | TypeName t | Var _ t | Func t => t
  | Nil => Basic "untyped nil"
  | PkgName _ | Label | Builtin => Basic "invalid type"
  end.

(** [types.Info]: the map [Types] from expression nodes to their type and
    the method [ObjectOf]; no entry and a nil object are [None]. *)
Record Info : Type := mkInfo {
  Types : ast.expr -> option Type_;
  ObjectOf : ast.ident -> option Object
}.

End types.

Module analysis.

(** [analysis.Pass], as far as the analyzer reads it.  What [Reportf]
    receives is the result of [run] below. *)
Record Pass : Type := mkPass {
  Files : list ast.File;
  TypesInfo : types.Info
}.

End analysis.

Import ast.
Import analysis.

(* ================================================================== *)
(** ** patterns.go *)

(** [Pattern]: the enumeration, in the order of its [iota] values. *)
Inductive Pattern : Type :=
| Unknown
| IDGenerator
| RoundRobin
| RateLimiter
| ConfigBroadcaster
| BoundedIterator
| CircuitBreaker
| ChanSemaphore
| Singleton
| FixedFanIn
| ChanTicker.

Definition patternNames (p : Pattern) : string :=
  match p with
  | Unknown => "Unknown"
  | IDGenerator => "IDGenerator"
  | RoundRobin => "RoundRobin"
  | RateLimiter => "RateLimiter"
  | ConfigBroadcaster => "ConfigBroadcaster"
  | BoundedIterator => "BoundedIterator"
  | CircuitBreaker => "CircuitBreaker"
  | ChanSemaphore => "ChanSemaphore"
  | Singleton => "Singleton"
  | FixedFanIn => "FixedFanIn"
  | ChanTicker => "ChanTicker"
  end.

Definition isUnknown (p : Pattern) : bool :=
  match p with
  | Unknown => true
  | _ => false
  end.

Record PatternSpec : Type := mkPatternSpec {
  Replacement : string;
  Speedup : string;
  Rationale : string
}.

(** [Registry]: the map literal; a pattern without an entry is [None]. *)
Definition Registry (p : Pattern) : option PatternSpec :=
  match p with
  | Unknown => None
  | IDGenerator => Some (mkPatternSpec
      "atomic.AddInt64" "~38x"
      "counter in infinite loop needs only an atomic increment")
  | RoundRobin => Some (mkPatternSpec
      "sync.Mutex + index" "~10x"
      "modular index cycling needs only a guarded counter")
  | RateLimiter => Some (mkPatternSpec
      "sync.Mutex + token bucket" "~8x"
      "ticker-refilled token slot needs only mutex-guarded math")
  | ConfigBroadcaster => Some (mkPatternSpec
      "atomic.Pointer / atomic.Value" "~80x"
      "latest-value store needs only an atomic pointer swap")
  | BoundedIterator => Some (mkPatternSpec
      "range-over-func (Go 1.23+) or Next() iterator" "~40x"
      "finite iteration needs no goroutine or channel")
  | CircuitBreaker => Some (mkPatternSpec
      "atomic.Int32" "~127x"
      "state enum in buffered chan(1) needs only an atomic int")
  | ChanSemaphore => Some (mkPatternSpec
      "x/sync/semaphore.Weighted" "~8x"
      "concurrency limiting chan struct{} is slower than semaphore")
  | Singleton => Some (mkPatternSpec
      "sync.Once + value field" "~19x"
      "one-time value served via channel needs only sync.Once")
  | FixedFanIn => Some (mkPatternSpec
      "sync.WaitGroup + append to slice" "~8x"
      "merging 2-3 fixed goroutines doesn't need a shared channel")
  | ChanTicker => Some (mkPatternSpec
      "time.NewTicker directly" "~15x"
      "wrapping time.Sleep in goroutine+channel duplicates time.Ticker")
  end.

(** Indexing the map: the zero [PatternSpec] when there is no entry. *)
Definition Registry_at (p : Pattern) : PatternSpec :=
  match Registry p with
  | Some s => s
  | None => mkPatternSpec EmptyString EmptyString EmptyString
  end.

(* ================================================================== *)
(** ** detect.go *)

Record channelProducer : Type := mkChannelProducer {
  sends : list sendStmt;
  funcLit : ast.funcLit;
  chanIdent : ident;
  chanType : option types.Type_;
  makePos : token.Pos;
  bufSize : Z
}.

(** [returnsChan]: some field of the result list has a channel type
    expression as its type. *)
Definition returnsChan (results : fieldList) : bool :=
  existsb (fun f => match Field_Type f with
                    | Some (ChanType _ _ _) => true
                    | _ => false
                    end)
          (FieldList_List results).

(** Go's [int], 64 bits wide, with its wrap-around. *)
Definition intWrap (z : Z) : Z := (z + 2 ^ 63) mod 2 ^ 64 - 2 ^ 63.

(** The runes of a literal's text.  The scanner produces INT literals out
    of ASCII characters only, so every byte is one rune. *)
Definition runes (s : string) : list Z :=
  map (fun c => Z.of_nat (nat_of_ascii c)) (list_ascii_of_string s).

(** The capacity loop of [extractMakeChan]:
    [buf = buf*10 + int(c-'0')] for every rune [c]. *)
Definition parseBuf (value : string) : Z :=
  fold_left (fun buf c => intWrap (buf * 10 + (c - 48))) (runes value) 0.

(** [extractMakeChan]: the identifier, position and capacity of
    [ch := make(chan T [, N])]; [None] is [found = false]. *)
Definition extractMakeChan (s : assignStmt)
  : option (ident * token.Pos * Z) :=
  match AssignStmt_Lhs s, AssignStmt_Rhs s with
  | [lhs0], [rhs0] =>
    match lhs0 with
    | Ident id =>
      match rhs0 with
      | CallExpr call =>
        match CallExpr_Fun call with
        | Ident fn =>
          if negb (String.eqb (Name fn) "make") then None
          else
            match CallExpr_Args call with
            | [] => None
            | ChanType _ _ _ :: rest =>
              let buf :=
                match rest with
                | BasicLit lit :: _ =>
                    match Kind lit with
                    | token.INT => parseBuf (Value lit)
                    | _ => 0
                    end
                | _ => 0
                end in
              Some (id, AssignStmt_Pos s, buf)
            | _ :: _ => None
            end
        | _ => None
        end
      | _ => None
      end
    | _ => None
    end
  | _, _ => None
  end.

(** The closure of [collectSends], over its variable [sends]. *)
Definition collectSends_visit (chanName : string)
    (n : option Node) (sends : list sendStmt) : bool * list sendStmt :=
  match n with
  | Some (StmtNode (SendStmt s)) =>
    match SendStmt_Chan s with
    | Ident ident =>
        if String.eqb (Name ident) chanName
        then (true, sends ++ [s])
        else (true, sends)
    | _ => (true, sends)
    end
  | _ => (true, sends)
  end.

Definition collectSends (fl : ast.funcLit) (chanName : string)
  : list sendStmt :=
  Inspect (collectSends_visit chanName) (funcLitTree fl) [].

(** The variables of the statement loop of [detect]. *)
Record scan : Type := mkScan {
  chanVar : option ident;
  scan_makePos : token.Pos;
  scan_bufSize : Z;
  goStmts : list goStmt
}.

Definition scan0 : scan := mkScan None 0 0 [].

(** One turn of the loop over [fn.Body.List]. *)
Definition scanStmt (st : scan) (stmt : ast.stmt) : scan :=
  match stmt with
  | AssignStmt s =>
    match extractMakeChan s with
    | Some (id, pos, buf) => mkScan (Some id) pos buf (goStmts st)
    | None => st
    end
  | GoStmt s =>
      mkScan (chanVar st) (scan_makePos st) (scan_bufSize st)
             (goStmts st ++ [s])
  | _ => st
  end.

(** The body of the loop over [file.Decls]: the producer appended for a
    declaration, [None] where the loop continues without one. *)
Definition detectDecl (pass : Pass) (d : decl) : option channelProducer :=
  match d with
  | FuncDecl fn =>
    match FuncDecl_Body fn, FuncType_Results (FuncDecl_Type fn) with
    | Some body, Some results =>
      if negb (returnsChan results) then None
      else
        let st := fold_left scanStmt body scan0 in
        match chanVar st, goStmts st with
        | Some chanVar, [go] =>
          match CallExpr_Fun (GoStmt_Call go) with
          | FuncLit funcLit =>
            let sends := collectSends funcLit (Name chanVar) in
            if (List.length sends =? 0)%nat then None
            else
              let ct :=
                match types.ObjectOf (TypesInfo pass) chanVar with
                | Some obj =>
                    if types.isChan (types.Object_Type obj)
                    then Some (types.Object_Type obj)
                    else None
                | None => None
                end in
              Some (mkChannelProducer sends funcLit chanVar ct
                                      (scan_makePos st) (scan_bufSize st))
          | _ => None
          end
        | _, _ => None
        end
    | _, _ => None
    end
  | _ => None
  end.

Definition detect (pass : Pass) (file : File) : list channelProducer :=
  fold_left (fun results d =>
               match detectDecl pass d with
               | Some cp => results ++ [cp]
               | None => results
               end)
            (Decls file) [].

(* ================================================================== *)
(** ** classify.go *)

Record indicators : Type := mkIndicators {
  hasIncrement : bool;
  hasModulo : bool;
  hasIndexExpr : bool;
  hasRange : bool;
  hasClose : bool;
  hasTimeSleep : bool;
  hasTimeTicker : bool;
  infiniteLoop : bool
}.

Definition indicators0 : indicators :=
  mkIndicators false false false false false false false false.

Definition set_hasIncrement (i : indicators) : indicators :=
  mkIndicators true (hasModulo i) (hasIndexExpr i) (hasRange i) (hasClose i)
               (hasTimeSleep i) (hasTimeTicker i) (infiniteLoop i).
Definition set_hasModulo (i : indicators) : indicators :=
  mkIndicators (hasIncrement i) true (hasIndexExpr i) (hasRange i)
               (hasClose i) (hasTimeSleep i) (hasTimeTicker i)
               (infiniteLoop i).
Definition set_hasIndexExpr (i : indicators) : indicators :=
  mkIndicators (hasIncrement i) (hasModulo i) true (hasRange i) (hasClose i)
               (hasTimeSleep i) (hasTimeTicker i) (infiniteLoop i).
Definition set_hasRange (i : indicators) : indicators :=
  mkIndicators (hasIncrement i) (hasModulo i) (hasIndexExpr i) true
               (hasClose i) (hasTimeSleep i) (hasTimeTicker i)
               (infiniteLoop i).
Definition set_hasClose (i : indicators) : indicators :=
  mkIndicators (hasIncrement i) (hasModulo i) (hasIndexExpr i) (hasRange i)
               true (hasTimeSleep i) (hasTimeTicker i) (infiniteLoop i).
Definition set_hasTimeSleep (i : indicators) : indicators :=
  mkIndicators (hasIncrement i) (hasModulo i) (hasIndexExpr i) (hasRange i)
               (hasClose i) true (hasTimeTicker i) (infiniteLoop i).
Definition set_hasTimeTicker (i : indicators) : indicators :=
  mkIndicators (hasIncrement i) (hasModulo i) (hasIndexExpr i) (hasRange i)
               (hasClose i) (hasTimeSleep i) true (infiniteLoop i).
Definition set_infiniteLoop (i : indicators) : indicators :=
  mkIndicators (hasIncrement i) (hasModulo i) (hasIndexExpr i) (hasRange i)
               (hasClose i) (hasTimeSleep i) (hasTimeTicker i) true.

(** The [*ast.CallExpr] case of the closure of [extractIndicators]. *)
Definition indicators_call (chanName : string) (node : callExpr)
    (ind : indicators) : indicators :=
  let ind :=
    match CallExpr_Fun node with
    | Ident ident =>
      if String.eqb (Name ident) "close" then
        match CallExpr_Args node with
        | [Ident arg] =>
            if String.eqb (Name arg) chanName then set_hasClose ind else ind
        | _ => ind
        end
      else ind
    | _ => ind
    end in
  match CallExpr_Fun node with
  | SelectorExpr (Ident pkg) sel =>
    if String.eqb (Name pkg) "time" then
      if String.eqb (Name sel) "Sleep" then set_hasTimeSleep ind
      else if String.eqb (Name sel) "NewTicker"
              || String.eqb (Name sel) "Tick"
           then set_hasTimeTicker ind
           else ind
    else ind
  | _ => ind
  end.

(** The closure of [extractIndicators], over its variable [ind]; it
    always returns true. *)
Definition extractIndicators_visit (chanName : string) (pass : Pass)
    (n : option Node) (ind : indicators) : bool * indicators :=
  (true,
   match n with
   | Some (StmtNode (IncDecStmt _ tok)) =>
     match tok with
     | token.INC => set_hasIncrement ind
     | _ => ind
     end
   | Some (StmtNode (AssignStmt node)) =>
     fold_left (fun ind rhs =>
                  match rhs with
                  | BinaryExpr _ token.REM _ => set_hasModulo ind
                  | _ => ind
                  end)
               (AssignStmt_Rhs node) ind
   | Some (ExprNode (IndexExpr _ _)) => set_hasIndexExpr ind
   | Some (StmtNode (RangeStmt _ _ x _)) =>
     match types.Types (TypesInfo pass) x with
     | Some tv =>
         if types.isChan (types.Underlying tv) then ind
         else set_hasRange ind
     | None => set_hasRange ind
     end
   | Some (StmtNode (ForStmt _ cond _ _)) =>
     match cond with
     | None => set_infiniteLoop ind
     | Some _ => ind
     end
   | Some (ExprNode (CallExpr node)) => indicators_call chanName node ind
   | _ => ind
   end).

Definition extractIndicators (body : list stmt) (chanName : string)
    (pass : Pass) : indicators :=
  Inspect (extractIndicators_visit chanName pass) (blockTree body)
          indicators0.

(** The closure of [containsMultiCaseSelect], over [found].  The body of
    a [SelectStmt] is never nil here. *)
Definition containsMultiCaseSelect_visit
    (n : option Node) (found : bool) : bool * bool :=
  if found then (false, found)
  else
    let found :=
      match n with
      | Some (StmtNode (SelectStmt body)) =>
          if (2 <=? List.length body)%nat then true else found
      | _ => found
      end in
    (negb found, found).

Definition containsMultiCaseSelect (body : list stmt) : bool :=
  Inspect containsMultiCaseSelect_visit (blockTree body) false.

(** The set [ioPkgs]. *)
Definition ioPkgs (path : string) : bool :=
  existsb (String.eqb path) ["net"; "net/http"; "os"; "io"; "database/sql"].

(** The closure of [containsIO], over [found]. *)
Definition containsIO_visit (pass : Pass)
    (n : option Node) (found : bool) : bool * bool :=
  if found then (false, found)
  else
    match n with
    | Some (ExprNode (CallExpr call)) =>
      match CallExpr_Fun call with
      | SelectorExpr (Ident ident) _ =>
        let found :=
          match types.ObjectOf (TypesInfo pass) ident with
          | Some (types.PkgName path) => if ioPkgs path then true else found
          | _ => found
          end in
        (negb found, found)
      | _ => (true, found)
      end
    | _ => (true, found)
    end.

Definition containsIO (body : list stmt) (pass : Pass) : bool :=
  Inspect (containsIO_visit pass) (blockTree body) false.

(** The closure of [rangesOverChannel], over [found]. *)
Definition rangesOverChannel_visit (pass : Pass)
    (n : option Node) (found : bool) : bool * bool :=
  if found then (false, found)
  else
    match n with
    | Some (StmtNode (RangeStmt _ _ x _)) =>
      match x with
      | Ident ident =>
        let found :=
          match types.Types (TypesInfo pass) x with
          | Some tv =>
            if types.isChan (types.Underlying tv) then
              match types.ObjectOf (TypesInfo pass) ident with
              | Some _ => true
              | None => found
              end
            else found
          | None => found
          end in
        (negb found, found)
      | _ => (true, found)
      end
    | _ => (true, found)
    end.

Definition rangesOverChannel (body : list stmt) (pass : Pass) : bool :=
  Inspect (rangesOverChannel_visit pass) (blockTree body) false.

(** [classify].  The body of a function literal is never nil here, so
    the first test of the source has no counterpart. *)
Definition classify (cp : channelProducer) (pass : Pass)
  : Pattern * float :=
  let body := FuncLit_Body (funcLit cp) in
  if containsMultiCaseSelect body then (Unknown, 0%float)
  else if containsIO body pass then (Unknown, 0%float)
  else if rangesOverChannel body pass then (Unknown, 0%float)
  else
    let ind := extractIndicators body (Name (chanIdent cp)) pass in
    if hasRange ind && hasClose ind then
      (BoundedIterator, 0.92%float)
    else if hasModulo ind && hasIndexExpr ind && infiniteLoop ind then
      (RoundRobin, 0.90%float)
    else if hasIncrement ind && infiniteLoop ind
            && negb (hasTimeSleep ind) then
      (IDGenerator, 0.95%float)
    else if hasTimeTicker ind then
      (RateLimiter, 0.78%float)
    else if hasTimeSleep ind && infiniteLoop ind then
      (ChanTicker, 0.80%float)
    else if (List.length (sends cp) =? 1)%nat
            && negb (infiniteLoop ind) && negb (hasRange ind) then
      (Singleton, 0.70%float)
    else (Unknown, 0%float).

(* ================================================================== *)
(** ** analyzer.go *)

(** A diagnostic: the position given to [Reportf] and the arguments of
    its format string, [pat], [spec.Replacement], [spec.Speedup] and
    [conf*100]. *)
Record Diagnostic : Type := mkDiagnostic {
  Diag_Pos : token.Pos;
  Diag_Pattern : Pattern;
  Diag_Replacement : string;
  Diag_Speedup : string;
  Diag_Percent : float
}.

(** The body of the inner loop of [run]: what is reported for a
    producer, nothing where the loop continues. *)
Definition report (pass : Pass) (cp : channelProducer)
  : option Diagnostic :=
  let (pat, conf) := classify cp pass in
  if isUnknown pat || (conf <? 0.5)%float then None
  else
    let spec := Registry_at pat in
    Some (mkDiagnostic (makePos cp) pat (Replacement spec) (Speedup spec)
                       (conf * 100)%float).

(** [run]: the diagnostics reported, in the order of the calls. *)
Definition run (pass : Pass) : list Diagnostic :=
  fold_left
    (fun out file =>
       fold_left (fun out cp =>
                    match report pass cp with
                    | Some d => out ++ [d]
                    | None => out
                    end)
                 (detect pass file) out)
    (Files pass) [].

(** An optional result as a list. *)
Definition olist {A : Type} (o : option A) : list A :=
  match o with
  | Some a => [a]
  | None => []
  end.

(* ================================================================== *)
(** ** testdata: the functions of the analyzer's test packages *)

Module testdata.

Definition id_ (p : token.Pos) (n : string) : expr := Ident (mkIdent p n).
Definition call_ (f : expr) (args : list expr) : expr :=
  CallExpr (mkCallExpr f args).
Definition define_ (l r : expr) : stmt :=
  AssignStmt (mkAssignStmt [l] token.DEFINE [r]).
Definition send_ (c v : expr) : stmt := SendStmt (mkSendStmt c v).
Definition task_ (body : list stmt) (p : token.Pos) : ast.funcLit :=
  mkFuncLit (mkFuncType p None (Some (mkFieldList (p + 4) [])) None) body.
Definition spawn_ (body : list stmt) (p : token.Pos) : goStmt :=
  mkGoStmt (mkCallExpr (FuncLit (task_ body p)) []).
Definition go_ (body : list stmt) (p : token.Pos) : stmt :=
  GoStmt (spawn_ body p).
Definition chanOf (p : token.Pos) (dir : ChanDir) (elt : expr) : expr :=
  ChanType p dir elt.
Definition unit_ (p : token.Pos) : expr :=
  CompositeLit (Some (StructType p (mkFieldList (p + 6) []))) (p + 8) [].
Definition funcDecl_ (p : token.Pos) (name : string) (params : list field)
    (results : list field) (body : list stmt) : funcDecl :=
  mkFuncDecl None (mkIdent (p + 5) name)
    (mkFuncType p None (Some (mkFieldList (p + 6) params))
       match results with
       | [] => None
       | _ => Some (mkFieldList 0 results)
       end)
    (Some body).
Definition func_ (p : token.Pos) (name : string) (params : list field)
    (results : list field) (body : list stmt) : decl :=
  FuncDecl (funcDecl_ p name params results body).
Definition result_ (t : expr) : list field := [mkField [] (Some t) None].

(** positive.go *)

Definition NewIDGenerator_make : expr :=
  call_ (id_ 85 "make") [chanOf 90 SEND_RECV (id_ 95 "int64")].

Definition NewIDGenerator_assign : assignStmt :=
  mkAssignStmt [id_ 79 "ch"] token.DEFINE [NewIDGenerator_make].

Definition NewIDGenerator_body : list stmt :=
  [ AssignStmt NewIDGenerator_assign;
    go_ [ DeclStmt (mkGenDecl token.VAR
            [ValueSpec [mkIdent 160 "id"] (Some (id_ 163 "int64")) []]);
          ForStmt None None None
            [ IncDecStmt (id_ 179 "id") token.INC;
              send_ (id_ 188 "ch") (id_ 194 "id") ] ] 141;
    ReturnStmt [id_ 217 "ch"] ].

Definition NewIDGenerator : decl :=
  func_ 40 "NewIDGenerator" []
    (result_ (chanOf 62 RECV (id_ 69 "int64")))
    NewIDGenerator_body.

Definition RoundRobin_fn : decl :=
  func_ 223 "RoundRobin"
    [mkField [mkIdent 239 "backends"]
       (Some (ArrayType 248 None (id_ 250 "string"))) None]
    (result_ (chanOf 258 RECV (id_ 265 "string")))
    [ define_ (id_ 275 "ch") (call_ (id_ 281 "make")
                                [chanOf 286 SEND_RECV (id_ 291 "string")]);
      go_ [ ForStmt
              (Some (define_ (id_ 358 "i")
                       (BasicLit (mkBasicLit 363 token.INT "0"))))
              None
              (Some (AssignStmt (mkAssignStmt [id_ 368 "i"] token.ASSIGN
                 [BinaryExpr
                    (ParenExpr 372
                       (BinaryExpr (id_ 373 "i") token.ADD
                          (BasicLit (mkBasicLit 377 token.INT "1"))))
                    token.REM
                    (call_ (id_ 382 "len") [id_ 386 "backends"])])))
              [ send_ (id_ 401 "ch")
                  (IndexExpr (id_ 407 "backends") (id_ 416 "i")) ] ] 339;
      ReturnStmt [id_ 437 "ch"] ].

Definition Iterate_task : list stmt :=
  [ DeferStmt (mkCallExpr (id_ 572 "close") [id_ 578 "ch"]);
    RangeStmt (Some (id_ 588 "_")) (Some (id_ 591 "v")) (id_ 602 "items")
      [ send_ (id_ 613 "ch") (id_ 619 "v") ] ].

Definition Iterate : decl :=
  func_ 443 "Iterate"
    [mkField [mkIdent 456 "items"]
       (Some (ArrayType 462 None (id_ 464 "int"))) None]
    (result_ (chanOf 469 RECV (id_ 476 "int")))
    [ define_ (id_ 483 "ch") (call_ (id_ 489 "make")
                                [chanOf 494 SEND_RECV (id_ 499 "int")]);
      go_ Iterate_task 551;
      ReturnStmt [id_ 638 "ch"] ].

Definition Heartbeat : decl :=
  func_ 644 "Heartbeat"
    [mkField [mkIdent 659 "d"]
       (Some (SelectorExpr (id_ 661 "time") (mkIdent 666 "Duration"))) None]
    (result_ (chanOf 676 RECV (StructType 683 (mkFieldList 689 []))))
    [ define_ (id_ 695 "ch") (call_ (id_ 701 "make")
        [chanOf 706 SEND_RECV (StructType 711 (mkFieldList 717 []))]);
      go_ [ ForStmt None None None
              [ ExprStmt (call_ (SelectorExpr (id_ 786 "time")
                                   (mkIdent 791 "Sleep")) [id_ 797 "d"]);
                send_ (id_ 803 "ch") (unit_ 809) ] ] 764;
      ReturnStmt [id_ 838 "ch"] ].

Definition RateLimited : decl :=
  func_ 844 "RateLimited"
    [mkField [mkIdent 861 "rps"] (Some (id_ 865 "int")) None]
    (result_ (chanOf 870 RECV (StructType 877 (mkFieldList 883 []))))
    [ define_ (id_ 889 "ch") (call_ (id_ 895 "make")
        [chanOf 900 SEND_RECV (StructType 905 (mkFieldList 911 []));
         id_ 915 "rps"]);
      go_ [ define_ (id_ 979 "ticker")
              (call_ (SelectorExpr (id_ 989 "time") (mkIdent 994 "NewTicker"))
                 [BinaryExpr
                    (SelectorExpr (id_ 1004 "time") (mkIdent 1009 "Second"))
                    token.QUO
                    (call_ (SelectorExpr (id_ 1018 "time")
                              (mkIdent 1023 "Duration"))
                       [id_ 1032 "rps"])]);
            DeferStmt (mkCallExpr
              (SelectorExpr (id_ 1047 "ticker") (mkIdent 1054 "Stop")) []);
            RangeStmt None None
              (SelectorExpr (id_ 1073 "ticker") (mkIdent 1080 "C"))
              [ send_ (id_ 1087 "ch") (unit_ 1093) ] ] 966;
      ReturnStmt [id_ 1120 "ch"] ].

Definition positive_go : File :=
  mkFile (mkIdent 9 "positive")
    [ GenDecl (mkGenDecl token.IMPORT []);
      NewIDGenerator; RoundRobin_fn; Iterate; Heartbeat; RateLimited ].

(** The answers of the type checker the analyzer asks for: the type of
    an iteration target and the binding of an identifier, by name. *)
Definition timeC : types.Type_ :=
  types.Chan types.RecvOnly (types.Named "time.Time" types.Struct).

Definition typeOfName (n : string) : option types.Type_ :=
  if String.eqb n "items" then Some (types.Slice (types.Basic "int"))
  else if String.eqb n "jobs" || String.eqb n "in"
       then Some (types.Chan types.RecvOnly (types.Basic "int"))
  else if String.eqb n "ch" || String.eqb n "out"
       then Some (types.Chan types.SendRecv (types.Basic "int"))
  else None.

Definition info : types.Info :=
  types.mkInfo
    (fun e =>
       match e with
       | Ident id => typeOfName (Name id)
       | SelectorExpr (Ident x) sel =>
           if String.eqb (Name x) "ticker" && String.eqb (Name sel) "C"
           then Some timeC else None
       | _ => None
       end)
    (fun id =>
       if String.eqb (Name id) "time" then Some (types.PkgName "time")
       else if String.eqb (Name id) "jobs" || String.eqb (Name id) "in"
                || String.eqb (Name id) "items"
            then option_map (types.Var types.ParamVar) (typeOfName (Name id))
       else option_map (types.Var types.LocalVar) (typeOfName (Name id))).

Definition positive : Pass := mkPass [positive_go] info.

(** negative.go *)

Definition WorkerPool_select : list stmt :=
  [ CommClause
      (Some (send_ (id_ 315 "out")
               (BinaryExpr (id_ 322 "j") token.MUL
                  (BasicLit (mkBasicLit 326 token.INT "2")))))
      [];
    CommClause
      (Some (ExprStmt (UnaryExpr 338 token.ARROW
         (call_ (SelectorExpr (id_ 340 "ctx") (mkIdent 344 "Done")) []))))
      [ReturnStmt []] ].

Definition WorkerPool_task : list stmt :=
  [ DeferStmt (mkCallExpr (id_ 260 "close") [id_ 266 "out"]);
    RangeStmt (Some (id_ 277 "j")) None (id_ 288 "jobs")
      [ SelectStmt WorkerPool_select ] ].

Definition WorkerPool_body : list stmt :=
  [ define_ (id_ 218 "out") (call_ (id_ 225 "make")
                               [chanOf 230 SEND_RECV (id_ 235 "int")]);
    go_ WorkerPool_task 242;
    ReturnStmt [id_ 388 "out"] ].

Definition WorkerPool_fn : funcDecl :=
  funcDecl_ 150 "WorkerPool"
    [mkField [mkIdent 166 "ctx"]
       (Some (SelectorExpr (id_ 170 "context") (mkIdent 178 "Context"))) None;
     mkField [mkIdent 187 "jobs"]
       (Some (chanOf 192 RECV (id_ 199 "int"))) None]
    (result_ (chanOf 204 RECV (id_ 211 "int")))
    WorkerPool_body.

Definition WorkerPool : decl := FuncDecl WorkerPool_fn.

Definition Square_task : list stmt :=
  [ DeferStmt (mkCallExpr (id_ 533 "close") [id_ 539 "out"]);
    RangeStmt (Some (id_ 550 "v")) None (id_ 561 "in")
      [ send_ (id_ 569 "out")
          (BinaryExpr (id_ 576 "v") token.MUL (id_ 580 "v")) ] ].

Definition Square : decl :=
  func_ 450 "Square"
    [mkField [mkIdent 462 "in"] (Some (chanOf 465 RECV (id_ 472 "int"))) None]
    (result_ (chanOf 477 RECV (id_ 484 "int")))
    [ define_ (id_ 491 "out") (call_ (id_ 498 "make")
                                 [chanOf 503 SEND_RECV (id_ 508 "int")]);
      go_ Square_task 515;
      ReturnStmt [id_ 601 "out"] ].

Definition FireAndForget : decl :=
  func_ 660 "FireAndForget"
    [mkField [mkIdent 679 "ch"] (Some (chanOf 682 SEND (id_ 689 "int"))) None]
    []
    [ go_ [ ForStmt
              (Some (define_ (id_ 716 "i")
                       (BasicLit (mkBasicLit 721 token.INT "0"))))
              (Some (BinaryExpr (id_ 724 "i") token.LSS
                       (BasicLit (mkBasicLit 728 token.INT "10"))))
              (Some (IncDecStmt (id_ 732 "i") token.INC))
              [ send_ (id_ 741 "ch") (id_ 747 "i") ] ] 697 ].

Definition negative_go : File :=
  mkFile (mkIdent 83 "negative")
    [ GenDecl (mkGenDecl token.IMPORT []);
      WorkerPool; Square; FireAndForget ].

Definition negative : Pass := mkPass [negative_go] info.

End testdata.

(* ================================================================== *)
(** ** Further functions the properties are tried on *)

Module examples.
Import testdata.

Definition int64_counter (p : token.Pos) : list stmt :=
  [ DeclStmt (mkGenDecl token.VAR
      [ValueSpec [mkIdent (p + 4) "id"] (Some (id_ (p + 7) "int64")) []]);
    ForStmt None None None
      [ IncDecStmt (id_ (p + 23) "id") token.INC;
        send_ (id_ (p + 32) "ch") (id_ (p + 38) "id") ] ].

(** A counter whose enclosing function, not the spawned task, waits on
    two channels:

      func Counter(ctx context.Context, stop <-chan bool) <-chan int64 {
          ch := make(chan int64)
          go func() { var id int64; for { id++; ch <- id } }()
          select {
          case <-ctx.Done():
          case <-stop:
          }
          return ch
      }
*)
Definition Counter_select : list stmt :=
  [ CommClause
      (Some (ExprStmt (UnaryExpr 180 token.ARROW
         (call_ (SelectorExpr (id_ 182 "ctx") (mkIdent 186 "Done")) []))))
      [];
    CommClause
      (Some (ExprStmt (UnaryExpr 200 token.ARROW (id_ 202 "stop"))))
      [] ].

Definition Counter_body : list stmt :=
  [ define_ (id_ 80 "ch") (call_ (id_ 86 "make")
                             [chanOf 91 SEND_RECV (id_ 96 "int64")]);
    go_ (int64_counter 120) 105;
    SelectStmt Counter_select;
    ReturnStmt [id_ 220 "ch"] ].

Definition Counter : decl :=
  func_ 10 "Counter"
    [mkField [mkIdent 23 "ctx"]
       (Some (SelectorExpr (id_ 27 "context") (mkIdent 35 "Context"))) None;
     mkField [mkIdent 44 "stop"]
       (Some (chanOf 49 RECV (id_ 56 "bool"))) None]
    (result_ (chanOf 62 RECV (id_ 69 "int64")))
    Counter_body.

(** A task that drains a channel it made itself:

      func Relay() <-chan int {
          out := make(chan int)
          go func() {
              src := make(chan int)
              for v := range src { out <- v }
          }()
          return out
      }
*)
Definition Relay_task : list stmt :=
  [ define_ (id_ 70 "src") (call_ (id_ 77 "make")
                              [chanOf 82 SEND_RECV (id_ 87 "int")]);
    RangeStmt (Some (id_ 98 "v")) None (id_ 109 "src")
      [ send_ (id_ 115 "out") (id_ 122 "v") ] ].

Definition Relay : decl :=
  func_ 10 "Relay" []
    (result_ (chanOf 23 RECV (id_ 30 "int")))
    [ define_ (id_ 37 "out") (call_ (id_ 44 "make")
                                [chanOf 49 SEND_RECV (id_ 54 "int")]);
      go_ Relay_task 60;
      ReturnStmt [id_ 140 "out"] ].

(** [src] is a local variable of channel type. *)
Definition Relay_info : types.Info :=
  types.mkInfo
    (fun e =>
       match e with
       | Ident id =>
           if String.eqb (Name id) "src" || String.eqb (Name id) "out"
           then Some (types.Chan types.SendRecv (types.Basic "int"))
           else None
       | _ => None
       end)
    (fun id =>
       if String.eqb (Name id) "src" || String.eqb (Name id) "out"
       then Some (types.Var types.LocalVar
                    (types.Chan types.SendRecv (types.Basic "int")))
       else None).

Definition Relay_pass : Pass :=
  mkPass [mkFile (mkIdent 1 "p") [Relay]] Relay_info.

(** Two channels are made and the task sends on both:

      func TwoChans() <-chan int {
          a := make(chan int, 1)
          b := make(chan int, 2)
          go func() { a <- 1; b <- 2 }()
          return b
      }
*)
Definition TwoChans_a : assignStmt :=
  mkAssignStmt [id_ 40 "a"] token.DEFINE
    [call_ (id_ 45 "make")
       [chanOf 50 SEND_RECV (id_ 55 "int");
        BasicLit (mkBasicLit 60 token.INT "1")]].

Definition TwoChans_b : assignStmt :=
  mkAssignStmt [id_ 65 "b"] token.DEFINE
    [call_ (id_ 70 "make")
       [chanOf 75 SEND_RECV (id_ 80 "int");
        BasicLit (mkBasicLit 85 token.INT "2")]].

Definition TwoChans_body : list stmt :=
  [ AssignStmt TwoChans_a;
    AssignStmt TwoChans_b;
    go_ [ send_ (id_ 102 "a") (BasicLit (mkBasicLit 107 token.INT "1"));
          send_ (id_ 110 "b") (BasicLit (mkBasicLit 115 token.INT "2")) ] 90;
    ReturnStmt [id_ 130 "b"] ].

Definition TwoChans_fn : funcDecl :=
  funcDecl_ 10 "TwoChans" [] (result_ (chanOf 26 RECV (id_ 33 "int")))
    TwoChans_body.

Definition TwoChans : decl := FuncDecl TwoChans_fn.

(** A second channel is made after the one that is sent on, and only
    closed:

      func Spare() <-chan int {
          a := make(chan int)
          b := make(chan int)
          go func() { a <- 1 }()
          close(b)
          return a
      }
*)
Definition Spare_a : assignStmt :=
  mkAssignStmt [id_ 40 "a"] token.DEFINE
    [call_ (id_ 45 "make") [chanOf 50 SEND_RECV (id_ 55 "int")]].

Definition Spare_task : ast.funcLit :=
  mkFuncLit (mkFuncType 83 None (Some (mkFieldList 87 [])) None)
    [ send_ (id_ 92 "a") (BasicLit (mkBasicLit 97 token.INT "1")) ].

Definition Spare_go : goStmt := mkGoStmt (mkCallExpr (FuncLit Spare_task) []).

Definition Spare_body : list stmt :=
  [ AssignStmt Spare_a;
    define_ (id_ 60 "b") (call_ (id_ 65 "make")
                            [chanOf 70 SEND_RECV (id_ 75 "int")]);
    GoStmt Spare_go;
    ExprStmt (call_ (id_ 104 "close") [id_ 110 "b"]);
    ReturnStmt [id_ 120 "a"] ].

Definition Spare_results : fieldList :=
  mkFieldList 0 (result_ (chanOf 23 RECV (id_ 30 "int"))).

Definition Spare : funcDecl :=
  mkFuncDecl None (mkIdent 15 "Spare")
    (mkFuncType 10 None (Some (mkFieldList 20 [])) (Some Spare_results))
    (Some Spare_body).

(** [a] and [b] are local variables of channel type; [make] and [close]
    are builtins. *)
Definition Spare_info : types.Info :=
  types.mkInfo
    (fun e =>
       match e with
       | Ident id =>
           if String.eqb (Name id) "a" || String.eqb (Name id) "b"
           then Some (types.Chan types.SendRecv (types.Basic "int"))
           else None
       | _ => None
       end)
    (fun id =>
       if String.eqb (Name id) "a" || String.eqb (Name id) "b"
       then Some (types.Var types.LocalVar
                    (types.Chan types.SendRecv (types.Basic "int")))
       else if String.eqb (Name id) "make" || String.eqb (Name id) "close"
            then Some types.Builtin
            else None).

Definition Spare_pass : Pass :=
  mkPass [mkFile (mkIdent 1 "p") [FuncDecl Spare]] Spare_info.

(** The made channel is sent on and nil is returned:

      func Lost() <-chan int {
          ch := make(chan int)
          go func() { ch <- 1 }()
          return nil
      }
*)
Definition Lost_make : assignStmt :=
  mkAssignStmt [id_ 40 "ch"] token.DEFINE
    [call_ (id_ 46 "make") [chanOf 51 SEND_RECV (id_ 56 "int")]].

Definition Lost_send : sendStmt :=
  mkSendStmt (id_ 75 "ch") (BasicLit (mkBasicLit 81 token.INT "1")).

Definition Lost_task : ast.funcLit :=
  mkFuncLit (mkFuncType 65 None (Some (mkFieldList 69 [])) None)
    [ SendStmt Lost_send ].

Definition Lost_go : goStmt := mkGoStmt (mkCallExpr (FuncLit Lost_task) []).

Definition Lost_body : list stmt :=
  [ AssignStmt Lost_make; GoStmt Lost_go; ReturnStmt [id_ 95 "nil"] ].

Definition Lost_results : fieldList :=
  mkFieldList 0 (result_ (chanOf 22 RECV (id_ 29 "int"))).

Definition Lost : funcDecl :=
  mkFuncDecl None (mkIdent 15 "Lost")
    (mkFuncType 10 None (Some (mkFieldList 19 [])) (Some Lost_results))
    (Some Lost_body).

(** A capacity written in base sixteen:

      func Hex() <-chan int {
          ch := make(chan int, 0x10)
          go func() { ch <- 1 }()
          return ch
      }
*)
Definition Hex_make : assignStmt :=
  mkAssignStmt [id_ 40 "ch"] token.DEFINE
    [call_ (id_ 46 "make")
       [chanOf 51 SEND_RECV (id_ 56 "int");
        BasicLit (mkBasicLit 61 token.INT "0x10")]].

Definition Hex : decl :=
  func_ 10 "Hex" [] (result_ (chanOf 21 RECV (id_ 28 "int")))
    [ AssignStmt Hex_make;
      go_ [ send_ (id_ 85 "ch") (BasicLit (mkBasicLit 91 token.INT "1")) ] 70;
      ReturnStmt [id_ 105 "ch"] ].

(** demos/antipatterns: the rate limiter whose task sends inside a
    select with a default clause.

      func RateLimiter(rps int) <-chan struct{} {
          ch := make(chan struct{}, rps)
          go func() {
              ticker := time.NewTicker(time.Second / time.Duration(rps))
              defer ticker.Stop()
              for range ticker.C {
                  select {
                  case ch <- struct{}{}:
                  default:
                  }
              }
          }()
          return ch
      }
*)
Definition RateLimiter_comm : stmt := send_ (id_ 1100 "ch") (unit_ 1106).

Definition RateLimiter_select : list stmt :=
  [ CommClause (Some RateLimiter_comm) []; CommClause None [] ].

Definition RateLimiter_task : ast.funcLit :=
  mkFuncLit (mkFuncType 966 None (Some (mkFieldList 970 [])) None)
    [ define_ (id_ 979 "ticker")
        (call_ (SelectorExpr (id_ 989 "time") (mkIdent 994 "NewTicker"))
           [BinaryExpr
              (SelectorExpr (id_ 1004 "time") (mkIdent 1009 "Second"))
              token.QUO
              (call_ (SelectorExpr (id_ 1018 "time") (mkIdent 1023 "Duration"))
                 [id_ 1032 "rps"])]);
      DeferStmt (mkCallExpr
        (SelectorExpr (id_ 1047 "ticker") (mkIdent 1054 "Stop")) []);
      RangeStmt None None
        (SelectorExpr (id_ 1073 "ticker") (mkIdent 1080 "C"))
        [ SelectStmt RateLimiter_select ] ].

Definition RateLimiter_fn : decl :=
  func_ 844 "RateLimiter"
    [mkField [mkIdent 861 "rps"] (Some (id_ 865 "int")) None]
    (result_ (chanOf 870 RECV (StructType 877 (mkFieldList 883 []))))
    [ define_ (id_ 889 "ch") (call_ (id_ 895 "make")
        [chanOf 900 SEND_RECV (StructType 905 (mkFieldList 911 []));
         id_ 915 "rps"]);
      GoStmt (mkGoStmt (mkCallExpr (FuncLit RateLimiter_task) []));
      ReturnStmt [id_ 1140 "ch"] ].

(** The producer detected for a declaration (an empty one when there is
    none). *)
Definition producerOf (pass : Pass) (d : decl) : channelProducer :=
  match detectDecl pass d with
  | Some cp => cp
  | None => mkChannelProducer [] (mkFuncLit (mkFuncType 0 None None None) [])
              (mkIdent 0 EmptyString) None 0 0
  end.

Definition NewIDGenerator_producer : channelProducer :=
  Eval vm_compute in producerOf testdata.positive testdata.NewIDGenerator.

Definition RateLimiter_producer : channelProducer :=
  Eval vm_compute in producerOf (mkPass [] testdata.info) RateLimiter_fn.

(** What the test package positive expects, one diagnostic per function. *)
Definition positive_want : list Diagnostic :=
  [ mkDiagnostic 79 IDGenerator "atomic.AddInt64" "~38x" 95%float;
    mkDiagnostic 275 RoundRobin "sync.Mutex + index" "~10x" 90%float;
    mkDiagnostic 483 BoundedIterator
      "range-over-func (Go 1.23+) or Next() iterator" "~40x" 92%float;
    mkDiagnostic 695 ChanTicker "time.NewTicker directly" "~15x" 80%float;
    mkDiagnostic 889 RateLimiter "sync.Mutex + token bucket" "~8x"
      78%float ].

(** A pass over one declaration with the test packages' type answers, and
    one whose type checker answers nothing. *)
Definition single (d : decl) : Pass :=
  mkPass [mkFile (mkIdent 1 "p") [d]] testdata.info.

Definition untyped (d : decl) : Pass :=
  mkPass [mkFile (mkIdent 1 "p") [d]]
         (types.mkInfo (fun _ => None) (fun _ => None)).

End examples.

(* ================================================================== *)
(** ** The specification's wording *)

(** The decision cascade as the specification lists it: the arms in
    order, each a condition on the indicator vector and the number of
    send sites, with the pair it yields. *)
Definition specArms
  : list ((indicators -> nat -> bool) * (Pattern * float)) :=
  [ (fun i _ => hasRange i && hasClose i,
     (BoundedIterator, 0.92%float));
    (fun i _ => hasModulo i && hasIndexExpr i && infiniteLoop i,
     (RoundRobin, 0.90%float));
    (fun i _ => hasIncrement i && infiniteLoop i && negb (hasTimeSleep i),
     (IDGenerator, 0.95%float));
    (fun i _ => hasTimeTicker i,
     (RateLimiter, 0.78%float));
    (fun i _ => hasTimeSleep i && infiniteLoop i,
     (ChanTicker, 0.80%float));
    (fun i n => (n =? 1)%nat && negb (infiniteLoop i) && negb (hasRange i),
     (Singleton, 0.70%float));
    (fun _ _ => true,
     (Unknown, 0.0%float)) ].

(** First match wins. *)
Fixpoint firstMatch (arms : list ((indicators -> nat -> bool)
                                  * (Pattern * float)))
    (i : indicators) (n : nat) : option (Pattern * float) :=
  match arms with
  | [] => None
  | (cond, result) :: rest =>
      if cond i n then Some result else firstMatch rest i n
  end.

(** The pipeline-stage gate as the specification words it: a loop over a
    bare identifier of channel type that is bound to a function
    parameter. *)
Definition rangesChanParam (pass : Pass) (n : Node) : bool :=
  match n with
  | StmtNode (RangeStmt _ _ (Ident ident) _) =>
    match types.Types (TypesInfo pass) (Ident ident) with
    | Some tv =>
        types.isChan (types.Underlying tv)
        && match types.ObjectOf (TypesInfo pass) ident with
           | Some (types.Var types.ParamVar _) => true
           | _ => false
           end
    | None => false
    end
  | _ => false
  end.

(** The valid channel-creating assignments at the top level of a
    function body, in statement order. *)
Definition makeChans (body : list stmt) : list (ident * token.Pos * Z) :=
  flat_map (fun s => match s with
                     | AssignStmt a => olist (extractMakeChan a)
                     | _ => []
                     end) body.

(** A decimal digit, and the base-ten reading of a string of digits. *)
Definition isDigit (c : Z) : bool := (48 <=? c) && (c <=? 57).

Definition decimalValue (value : string) : Z :=
  fold_left (fun v c => v * 10 + (c - 48)) (runes value) 0.

(** A decimal literal without digit separators, as the grammar of Go
    has it: [0], or a digit from 1 to 9 followed by decimal digits.  A
    longer literal that begins with 0 is in another base.  The value of
    a decimal literal is its base-ten reading. *)
Definition isDecimalLit (value : string) : bool :=
  match runes value with
  | [] => false
  | [c] => isDigit c
  | c :: rest => (49 <=? c) && (c <=? 57) && forallb isDigit rest
  end.

(* ================================================================== *)
(** ** What the closures look for, and the loops' results *)

(** What each gate looks for at a node. *)
Definition isMultiCaseSelect (n : Node) : bool :=
  match n with
  | StmtNode (SelectStmt body) => (2 <=? List.length body)%nat
  | _ => false
  end.

Definition callsIO (pass : Pass) (n : Node) : bool :=
  match n with
  | ExprNode (CallExpr (mkCallExpr (SelectorExpr (Ident ident) _) _)) =>
    match types.ObjectOf (TypesInfo pass) ident with
    | Some (types.PkgName path) => ioPkgs path
    | _ => false
    end
  | _ => false
  end.

Definition rangesChanIdent (pass : Pass) (n : Node) : bool :=
  match n with
  | StmtNode (RangeStmt _ _ (Ident ident) _) =>
    match types.Types (TypesInfo pass) (Ident ident) with
    | Some tv =>
        types.isChan (types.Underlying tv)
        && match types.ObjectOf (TypesInfo pass) ident with
           | Some _ => true
           | None => false
           end
    | None => false
    end
  | _ => false
  end.

(** The loops that set [hasRange]. *)
Definition rangeSets (pass : Pass) (n : Node) : bool :=
  match n with
  | StmtNode (RangeStmt _ _ x _) =>
    match types.Types (TypesInfo pass) x with
    | Some tv => negb (types.isChan (types.Underlying tv))
    | None => true
    end
  | _ => false
  end.

(** The send statements [collectSends] keeps at a node. *)
Definition sendOn (chanName : string) (n : Node) : list sendStmt :=
  match n with
  | StmtNode (SendStmt s) =>
    match SendStmt_Chan s with
    | Ident ident => if String.eqb (Name ident) chanName then [s] else []
    | _ => []
    end
  | _ => []
  end.

(** The top-level go statements and the loop's list of them. *)
Definition topLevelGo (body : list stmt) : list goStmt :=
  flat_map (fun s => match s with
                     | GoStmt g => [g]
                     | _ => []
                     end) body.

(** No valid channel-creating assignment among the statements. *)
Definition noMakeChan (l : list stmt) : Prop :=
  forall a, In (AssignStmt a) l -> extractMakeChan a = None.

(** The channel variables of the loop after the statements [l]. *)
Definition scanChan (st : scan) : option ident * token.Pos * Z :=
  (chanVar st, scan_makePos st, scan_bufSize st).

(** The diagnostics reported for one declaration. *)
Definition diagnosticsOf (pass : Pass) (d : decl) : list Diagnostic :=
  match detectDecl pass d with
  | Some cp => olist (report pass cp)
  | None => []
  end.

(** The pairs [classify] can return. *)
Definition cascadePairs : list (Pattern * float) :=
  [ (Unknown, 0%float); (BoundedIterator, 0.92%float);
    (RoundRobin, 0.90%float); (IDGenerator, 0.95%float);
    (RateLimiter, 0.78%float); (ChanTicker, 0.80%float);
    (Singleton, 0.70%float) ].

(* ================================================================== *)
(** ** The rest of patterns.go, and what sets each indicator *)

(** The [iota] value of a pattern constant. *)
Definition Pattern_int (p : Pattern) : Z :=
  match p with
  | Unknown => 0
  | IDGenerator => 1
  | RoundRobin => 2
  | RateLimiter => 3
  | ConfigBroadcaster => 4
  | BoundedIterator => 5
  | CircuitBreaker => 6
  | ChanSemaphore => 7
  | Singleton => 8
  | FixedFanIn => 9
  | ChanTicker => 10
  end.

(** The array [patternNames]. *)
Definition patternNames_array : list string :=
  [ "Unknown"; "IDGenerator"; "RoundRobin"; "RateLimiter";
    "ConfigBroadcaster"; "BoundedIterator"; "CircuitBreaker";
    "ChanSemaphore"; "Singleton"; "FixedFanIn"; "ChanTicker" ].

(** The method [String] on any value of the integer type [Pattern]:
    [None] is the panic of indexing the array with a negative value. *)
Definition Pattern_String (p : Z) : option string :=
  if p <? Z.of_nat (List.length patternNames_array) then
    if p <? 0 then None else nth_error patternNames_array (Z.to_nat p)
  else Some "Unknown".

(** The loop of [init], [for p := IDGenerator; p <= ChanTicker; p++]:
    the pattern it panics for, [None] when it returns. *)
Definition init_ : option Pattern :=
  find (fun p => match Registry p with
                 | Some _ => false
                 | None => true
                 end)
       [ IDGenerator; RoundRobin; RateLimiter; ConfigBroadcaster;
         BoundedIterator; CircuitBreaker; ChanSemaphore; Singleton;
         FixedFanIn; ChanTicker ].

(** The nodes at which the closure of [extractIndicators] sets an
    indicator. *)
Definition incNode (n : Node) : bool :=
  match n with
  | StmtNode (IncDecStmt _ token.INC) => true
  | _ => false
  end.

Definition isRem (e : expr) : bool :=
  match e with
  | BinaryExpr _ token.REM _ => true
  | _ => false
  end.

Definition moduloNode (n : Node) : bool :=
  match n with
  | StmtNode (AssignStmt s) => existsb isRem (AssignStmt_Rhs s)
  | _ => false
  end.

Definition indexNode (n : Node) : bool :=
  match n with
  | ExprNode (IndexExpr _ _) => true
  | _ => false
  end.

Definition closeNode (chanName : string) (n : Node) : bool :=
  match n with
  | ExprNode (CallExpr (mkCallExpr (Ident f) [Ident arg])) =>
      String.eqb (Name f) "close" && String.eqb (Name arg) chanName
  | _ => false
  end.

Definition timeCall (names : list string) (n : Node) : bool :=
  match n with
  | ExprNode (CallExpr (mkCallExpr (SelectorExpr (Ident pkg) sel) _)) =>
      String.eqb (Name pkg) "time" && existsb (String.eqb (Name sel)) names
  | _ => false
  end.

Definition infiniteNode (n : Node) : bool :=
  match n with
  | StmtNode (ForStmt _ None _ _) => true
  | _ => false
  end.

(** The indicators a node sets, and setting the indicators of one
    vector in another. *)
Definition flags (chanName : string) (pass : Pass) (n : Node)
  : indicators :=
  mkIndicators (incNode n) (moduloNode n) (indexNode n) (rangeSets pass n)
               (closeNode chanName n) (timeCall ["Sleep"] n)
               (timeCall ["NewTicker"; "Tick"] n) (infiniteNode n).

Definition ior (a b : indicators) : indicators :=
  mkIndicators (hasIncrement a || hasIncrement b)
               (hasModulo a || hasModulo b)
               (hasIndexExpr a || hasIndexExpr b)
               (hasRange a || hasRange b)
               (hasClose a || hasClose b)
               (hasTimeSleep a || hasTimeSleep b)
               (hasTimeTicker a || hasTimeTicker b)
               (infiniteLoop a || infiniteLoop b).

(** The channel type [detect] stores in a producer: the type of the
    object of the channel identifier when it is a channel type. *)
Definition chanTypeOf (pass : Pass) (chanVar : ident)
  : option types.Type_ :=
  match types.ObjectOf (TypesInfo pass) chanVar with
  | Some obj =>
      if types.isChan (types.Object_Type obj)
      then Some (types.Object_Type obj)
      else None
  | None => None
  end.

(** The function declarations among the declarations of a file. *)
Definition funcDecls (file : File) : list funcDecl :=
  flat_map (fun d => match d with
                     | FuncDecl fn => [fn]
                     | _ => []
                     end) (Decls file).

(** The six messages the analyzer can report: pattern, replacement,
    speedup and percentage. *)
Definition messages : list (Pattern * string * string * float) :=
  [ (IDGenerator, "atomic.AddInt64", "~38x", 95%float);
    (RoundRobin, "sync.Mutex + index", "~10x", 90%float);
    (RateLimiter, "sync.Mutex + token bucket", "~8x", 78%float);
    (BoundedIterator, "range-over-func (Go 1.23+) or Next() iterator",
     "~40x", 92%float);
    (Singleton, "sync.Once + value field", "~19x", 70%float);
    (ChanTicker, "time.NewTicker directly", "~15x", 80%float) ].

(** Further functions of the examples. *)
Module more.
Import testdata.

(** [ch := make(chan int, 64)], as in the benchmarks. *)
Definition buffered_lit : basicLit := mkBasicLit 61 token.INT "64".

Definition buffered : assignStmt :=
  mkAssignStmt [id_ 40 "ch"] token.DEFINE
    [call_ (id_ 46 "make")
       [chanOf 51 SEND_RECV (id_ 56 "int"); BasicLit buffered_lit]].

Definition Square_fn : funcDecl :=
  funcDecl_ 450 "Square"
    [mkField [mkIdent 462 "in"] (Some (chanOf 465 RECV (id_ 472 "int"))) None]
    (result_ (chanOf 477 RECV (id_ 484 "int")))
    [ define_ (id_ 491 "out") (call_ (id_ 498 "make")
                                 [chanOf 503 SEND_RECV (id_ 508 "int")]);
      go_ Square_task 515;
      ReturnStmt [id_ 601 "out"] ].

End more.

(* ================================================================== *)
(** ** Induction on trees *)

(** Induction on a tree with the hypothesis for all of its subtrees. *)
Section tree_induction.
Variable P : tree -> Prop.
Hypothesis step : forall n kids, Forall P kids -> P (T n kids).

Fixpoint tree_all (t : tree) : P t :=
  match t with
  | T n kids =>
      step n kids
        ((fix all (l : list tree) : Forall P l :=
            match l with
            | [] => Forall_nil P
            | k :: l' => Forall_cons k (tree_all k) (all l')
            end) kids)
  end.

End tree_induction.

(** Membership in a list that is given in full. *)
Ltac in_list := vm_compute; repeat (first [left; reflexivity | right]).

(* ================================================================== *)
(** ** Traversal lemmas *)

Section Inspect_facts.
Context {S : Type}.
Variable f : option Node -> S -> bool * S.

Lemma Inspect_T n kids s :
  Inspect f (T n kids) s =
  (let (descend, s1) := f (Some n) s in
   if descend
   then snd (f None (fold_left (fun a k => Inspect f k a) kids s1))
   else s1).
Proof. reflexivity. Qed.

(** A closure that always returns true and does nothing on nil visits
    every node once, parents first. *)
Lemma Inspect_every (g : Node -> S -> S) :
  (forall n s, f (Some n) s = (true, g n s)) ->
  (forall s, snd (f None s) = s) ->
  forall t s,
    Inspect f t s = fold_left (fun a n => g n a) (nodes t) s.
Proof.
  intros Hsome Hnil t.
  induction t as [n kids IH] using tree_all.
  intros s. rewrite Inspect_T, Hsome, Hnil. simpl.
  generalize (g n s). clear s.
  induction IH as [|k kids Hk _ IHkids]; intros s; simpl.
  - reflexivity.
  - rewrite fold_left_app, <- Hk. apply IHkids.
Qed.

End Inspect_facts.

(** A closure over [found] that stops at the first node satisfying [p]
    computes whether some node satisfies [p]. *)
Lemma Inspect_found (f : option Node -> bool -> bool * bool)
    (p : Node -> bool) :
  (forall n, f n true = (false, true)) ->
  (forall n, f (Some n) false = (negb (p n), p n)) ->
  snd (f None false) = false ->
  forall t found,
    Inspect f t found = found || existsb p (nodes t).
Proof.
  intros Htrue Hfalse Hnil t.
  assert (Hnil' : forall b, snd (f None b) = b).
  { intros [|]; [rewrite Htrue; reflexivity | exact Hnil]. }
  induction t as [n kids IH] using tree_all.
  intros [|]; rewrite Inspect_T.
  - rewrite Htrue. reflexivity.
  - rewrite Hfalse. simpl. destruct (p n); simpl; [reflexivity|].
    rewrite Hnil'.
    enough (H : forall b, fold_left (fun a k => Inspect f k a) kids b
                          = b || existsb p (flat_map nodes kids))
      by (rewrite H; reflexivity).
    induction IH as [|k kids Hk _ IHkids]; intros b; simpl.
    + now rewrite orb_false_r.
    + rewrite IHkids, Hk, existsb_app. now rewrite orb_assoc.
Qed.

Lemma existsb_In {A : Type} (p : A -> bool) (l : list A) :
  existsb p l = true <-> exists x, In x l /\ p x = true.
Proof. apply existsb_exists. Qed.

(** [fold_left] that appends at most one element per turn. *)
Lemma fold_left_collect {A B : Type} (g : A -> option B) (l : list A) :
  forall acc,
    fold_left (fun out a => match g a with
                            | Some b => out ++ [b]
                            | None => out
                            end) l acc
    = acc ++ flat_map (fun a => match g a with
                                | Some b => [b]
                                | None => []
                                end) l.
Proof.
  induction l as [|a l IH]; intros acc; simpl.
  - now rewrite app_nil_r.
  - rewrite IH. destruct (g a); simpl.
    + now rewrite <- app_assoc.
    + reflexivity.
Qed.

(* ================================================================== *)
(** ** The safety gates as searches *)

Lemma containsMultiCaseSelect_nodes body :
  containsMultiCaseSelect body
  = existsb isMultiCaseSelect (nodes (blockTree body)).
Proof.
  unfold containsMultiCaseSelect.
  rewrite (Inspect_found _ isMultiCaseSelect); try reflexivity.
  intros [e|s| | | |]; try reflexivity.
  destruct s; try reflexivity.
  unfold containsMultiCaseSelect_visit, isMultiCaseSelect.
  destruct (2 <=? List.length Body)%nat; reflexivity.
Qed.

Lemma containsIO_nodes body pass :
  containsIO body pass = existsb (callsIO pass) (nodes (blockTree body)).
Proof.
  unfold containsIO.
  rewrite (Inspect_found _ (callsIO pass)); try reflexivity.
  intros [e|s| | | |]; try reflexivity.
  destruct e; try reflexivity.
  destruct call as [fn args]. destruct fn; try reflexivity.
  destruct fn; try reflexivity.
  unfold containsIO_visit, callsIO. simpl.
  destruct (types.ObjectOf (TypesInfo pass) id) as [[]|]; try reflexivity.
  destruct (ioPkgs imported); reflexivity.
Qed.

Lemma rangesOverChannel_nodes body pass :
  rangesOverChannel body pass
  = existsb (rangesChanIdent pass) (nodes (blockTree body)).
Proof.
  unfold rangesOverChannel.
  rewrite (Inspect_found _ (rangesChanIdent pass)); try reflexivity.
  intros [e|s| | | |]; try reflexivity.
  destruct s; try reflexivity.
  destruct X; reflexivity.
Qed.

(** A producer stopped by a gate is classified Unknown. *)
Lemma classify_gated cp pass :
  containsMultiCaseSelect (FuncLit_Body (funcLit cp)) = true
  \/ containsIO (FuncLit_Body (funcLit cp)) pass = true
  \/ rangesOverChannel (FuncLit_Body (funcLit cp)) pass = true ->
  classify cp pass = (Unknown, 0%float).
Proof.
  unfold classify. intros [H|[H|H]]; rewrite H.
  - reflexivity.
  - destruct (containsMultiCaseSelect _); reflexivity.
  - destruct (containsMultiCaseSelect _); [reflexivity|].
    destruct (containsIO _ _); reflexivity.
Qed.

(* ================================================================== *)
(** ** The loops of detect and run *)

Lemma detect_decls pass file :
  detect pass file = flat_map (fun d => olist (detectDecl pass d)) (Decls file).
Proof.
  unfold detect. rewrite (fold_left_collect (detectDecl pass)). reflexivity.
Qed.

Lemma run_loop pass files : forall acc,
  fold_left
    (fun out file =>
       fold_left (fun out cp =>
                    match report pass cp with
                    | Some d => out ++ [d]
                    | None => out
                    end)
                 (detect pass file) out)
    files acc
  = acc ++ flat_map (fun file =>
                       flat_map (fun cp => olist (report pass cp))
                                (detect pass file))
                    files.
Proof.
  induction files as [|file files IH]; intros acc; simpl.
  - now rewrite app_nil_r.
  - rewrite IH, (fold_left_collect (report pass)), <- app_assoc.
    reflexivity.
Qed.

Lemma run_producers pass :
  run pass
  = flat_map (fun file =>
                flat_map (fun cp => olist (report pass cp)) (detect pass file))
             (Files pass).
Proof. unfold run. now rewrite run_loop. Qed.

Lemma run_decls pass :
  run pass
  = flat_map (fun file => flat_map (diagnosticsOf pass) (Decls file))
             (Files pass).
Proof.
  rewrite run_producers. apply flat_map_ext. intros file.
  rewrite detect_decls. unfold diagnosticsOf.
  induction (Decls file) as [|d ds IH]; simpl; [reflexivity|].
  rewrite <- IH. destruct (detectDecl pass d); simpl.
  - reflexivity.
  - reflexivity.
Qed.

Lemma In_run pass d :
  In d (run pass) <->
  exists file cp,
    In file (Files pass) /\ In cp (detect pass file)
    /\ report pass cp = Some d.
Proof.
  rewrite run_producers, in_flat_map. split.
  - intros (file & Hfile & Hd). apply in_flat_map in Hd.
    destruct Hd as (cp & Hcp & Hd). exists file, cp.
    destruct (report pass cp) as [d'|]; simpl in Hd; [|contradiction].
    destruct Hd as [->|[]]. auto.
  - intros (file & cp & Hfile & Hcp & Hd). exists file. split; [exact Hfile|].
    apply in_flat_map. exists cp. rewrite Hd. simpl. auto.
Qed.


Lemma scan_goStmts body : forall st,
  goStmts (fold_left scanStmt body st) = goStmts st ++ topLevelGo body.
Proof.
  induction body as [|s body IH]; intros st; simpl.
  - now rewrite app_nil_r.
  - rewrite IH. destruct s; simpl; try reflexivity.
    + destruct (extractMakeChan s) as [[[id pos] buf]|]; reflexivity.
    + now rewrite <- app_assoc.
Qed.

Lemma In_topLevelGo g body : In g (topLevelGo body) <-> In (GoStmt g) body.
Proof.
  unfold topLevelGo. rewrite in_flat_map. split.
  - intros (s & Hs & Hg). destruct s; simpl in Hg; try contradiction.
    destruct Hg as [->|[]]. exact Hs.
  - intros H. exists (GoStmt g). simpl. auto.
Qed.

Lemma scan_keeps l : forall st,
  noMakeChan l -> scanChan (fold_left scanStmt l st) = scanChan st.
Proof.
  induction l as [|s l IH]; intros st Hno; simpl; [reflexivity|].
  rewrite IH.
  - destruct s; try reflexivity.
    simpl. rewrite (Hno s); [reflexivity | now left].
  - intros a Ha. apply Hno. now right.
Qed.

Lemma scan_last pre a post id pos buf st :
  extractMakeChan a = Some (id, pos, buf) ->
  noMakeChan post ->
  scanChan (fold_left scanStmt (pre ++ AssignStmt a :: post) st)
  = (Some id, pos, buf).
Proof.
  intros Ha Hno. rewrite fold_left_app. simpl.
  rewrite scan_keeps by exact Hno. rewrite Ha. reflexivity.
Qed.



Lemma makeChans_app l1 l2 :
  makeChans (l1 ++ l2) = makeChans l1 ++ makeChans l2.
Proof. unfold makeChans. apply flat_map_app. Qed.

(** The channel variables of the statement loop are those of the last
    valid channel-creating assignment. *)
Lemma scan_makeChans body : forall st,
  scanChan (fold_left scanStmt body st)
  = match rev (makeChans body) with
    | [] => scanChan st
    | (id, pos, buf) :: _ => (Some id, pos, buf)
    end.
Proof.
  induction body as [|s body IH] using rev_ind; intros st; [reflexivity|].
  rewrite fold_left_app, makeChans_app, rev_app_distr. cbn [fold_left].
  destruct s; simpl; try apply IH.
  destruct (extractMakeChan s) as [[[id pos] buf]|]; simpl.
  - reflexivity.
  - apply IH.
Qed.

(* ================================================================== *)
(** ** The decision cascade and the reporter *)

(** The analyzer on its two test packages. *)
Lemma run_positive : run testdata.positive = examples.positive_want.
Proof. vm_compute. reflexivity. Qed.

Lemma run_negative : run testdata.negative = [].
Proof. vm_compute. reflexivity. Qed.

Lemma classify_pairs cp pass : In (classify cp pass) cascadePairs.
Proof.
  unfold classify, cascadePairs.
  repeat match goal with
         | |- context [if ?b then _ else _] => destruct b
         end; simpl; auto 10.
Qed.

(** A pair of the cascade passes the reporter's test exactly when its
    pattern is not Unknown, and then its confidence is at least 0.5. *)
Lemma cascadePairs_confident pc :
  In pc cascadePairs ->
  isUnknown (fst pc) || (snd pc <? 0.5)%float = false ->
  fst pc <> Unknown /\ (0.5 <=? snd pc)%float = true.
Proof.
  unfold cascadePairs. simpl.
  intros [<-|[<-|[<-|[<-|[<-|[<-|[<-|[]]]]]]]] H;
    simpl in *; try discriminate H; split;
    solve [discriminate | reflexivity].
Qed.

Lemma report_Some pass cp d :
  report pass cp = Some d ->
  isUnknown (fst (classify cp pass))
  || (snd (classify cp pass) <? 0.5)%float = false
  /\ Diag_Pos d = makePos cp
  /\ Diag_Pattern d = fst (classify cp pass).
Proof.
  unfold report. destruct (classify cp pass) as [pat conf]. simpl.
  destruct (isUnknown pat || (conf <? 0.5)%float); [discriminate|].
  intros [= <-]. auto.
Qed.

(** C1.  For every producer that passes the three safety gates,
    [classify] returns the pair of the first arm of the specification's
    cascade whose condition holds of the producer's indicator vector and
    number of send sites: the seven arms of [specArms], in that order,
    first match winning. *)
Theorem classify_follows_cascade (cp : channelProducer) (pass : Pass) :
  containsMultiCaseSelect (FuncLit_Body (funcLit cp)) = false ->
  containsIO (FuncLit_Body (funcLit cp)) pass = false ->
  rangesOverChannel (FuncLit_Body (funcLit cp)) pass = false ->
  Some (classify cp pass)
  = firstMatch specArms
      (extractIndicators (FuncLit_Body (funcLit cp)) (Name (chanIdent cp))
                         pass)
      (List.length (sends cp)).
Proof.
  intros H1 H2 H3. unfold classify. rewrite H1, H2, H3.
  cbv beta iota zeta delta [firstMatch specArms].
  repeat match goal with
         | |- context [if ?b then _ else _] => destruct b; try reflexivity
         end.
Qed.

(** The counter of the test package passes the gates and falls to the
    third arm. *)
Lemma classify_follows_cascade_witness :
  detectDecl testdata.positive testdata.NewIDGenerator
  = Some examples.NewIDGenerator_producer
  /\ classify examples.NewIDGenerator_producer testdata.positive
     = (IDGenerator, 0.95%float).
Proof.
  split; [vm_compute; reflexivity|].
  assert (H := classify_follows_cascade
                 examples.NewIDGenerator_producer testdata.positive
                 ltac:(vm_compute; reflexivity)
                 ltac:(vm_compute; reflexivity)
                 ltac:(vm_compute; reflexivity)).
  match type of H with
  | _ = ?r =>
      assert (E : r = Some (IDGenerator, 0.95%float))
        by (vm_compute; reflexivity);
      rewrite E in H
  end.
  exact (f_equal (fun o => match o with
                           | Some pc => pc
                           | None => (Unknown, 0%float)
                           end) H).
Defined.

(** C2.  Every diagnostic [run] reports comes from a detected producer
    whose classification is not Unknown and has a confidence of at least
    0.5; and a producer classified Unknown or with a confidence below 0.5
    is reported nothing. *)
Theorem reported_is_confident (pass : Pass) :
  (forall d, In d (run pass) ->
     exists file cp,
       In file (Files pass) /\ In cp (detect pass file)
       /\ report pass cp = Some d
       /\ Diag_Pattern d = fst (classify cp pass)
       /\ fst (classify cp pass) <> Unknown
       /\ (0.5 <=? snd (classify cp pass))%float = true)
  /\ (forall cp,
        fst (classify cp pass) = Unknown
        \/ (snd (classify cp pass) <? 0.5)%float = true ->
        report pass cp = None).
Proof.
  split.
  - intros d (file & cp & Hfile & Hcp & Hd)%In_run.
    exists file, cp. repeat (split; [assumption|]).
    destruct (report_Some _ _ _ Hd) as (Hok & _ & Hpat).
    split; [exact Hpat|].
    apply cascadePairs_confident; [apply classify_pairs | exact Hok].
  - intros cp H. unfold report.
    destruct (classify cp pass) as [pat conf]. simpl in H.
    destruct H as [-> | ->]; [reflexivity|].
    now rewrite orb_true_r.
Qed.

Lemma reported_is_confident_witness :
  exists file cp,
    In file (Files testdata.positive)
    /\ In cp (detect testdata.positive file)
    /\ report testdata.positive cp
       = Some (mkDiagnostic 79 IDGenerator "atomic.AddInt64" "~38x" 95%float)
    /\ IDGenerator = fst (classify cp testdata.positive)
    /\ fst (classify cp testdata.positive) <> Unknown
    /\ (0.5 <=? snd (classify cp testdata.positive))%float = true.
Proof.
  apply (proj1 (reported_is_confident testdata.positive)
           (mkDiagnostic 79 IDGenerator "atomic.AddInt64" "~38x" 95%float)).
  rewrite run_positive. left. reflexivity.
Defined.

(* ================================================================== *)
(** ** What a detected producer is made of *)

Lemma detectDecl_inv pass d cp :
  detectDecl pass d = Some cp ->
  exists fn body results go,
    d = FuncDecl fn
    /\ FuncDecl_Body fn = Some body
    /\ FuncType_Results (FuncDecl_Type fn) = Some results
    /\ returnsChan results = true
    /\ topLevelGo body = [go]
    /\ CallExpr_Fun (GoStmt_Call go) = FuncLit (funcLit cp)
    /\ scanChan (fold_left scanStmt body scan0)
       = (Some (chanIdent cp), makePos cp, bufSize cp)
    /\ sends cp = collectSends (funcLit cp) (Name (chanIdent cp))
    /\ sends cp <> [].
Proof.
  destruct d as [| |fn]; try discriminate. unfold detectDecl.
  destruct (FuncDecl_Body fn) as [body|] eqn:Hbody; [|discriminate].
  destruct (FuncType_Results (FuncDecl_Type fn)) as [results|] eqn:Hres;
    [|discriminate].
  destruct (returnsChan results) eqn:Hret; [|discriminate]. simpl.
  pose proof (scan_goStmts body scan0) as Hgo. simpl in Hgo.
  remember (fold_left scanStmt body scan0) as st eqn:Hst.
  destruct st as [cv mp bs gs]. simpl in *.
  destruct cv as [chanVar|]; [|discriminate].
  destruct gs as [|go [|]]; try discriminate.
  destruct (CallExpr_Fun (GoStmt_Call go)) eqn:Hfun; try discriminate.
  destruct (collectSends fl (Name chanVar)) as [|s0 ss] eqn:Hsends;
    [discriminate|].
  simpl. intros [= <-]. simpl.
  exists fn, body, results, go. rewrite Hsends, <- Hst.
  repeat split; auto. discriminate.
Qed.

Lemma report_Unknown pass cp :
  classify cp pass = (Unknown, 0%float) -> report pass cp = None.
Proof. unfold report. now intros ->. Qed.

(** The search of a gate finds a node of the body. *)
Lemma gate_finds (p : Node -> bool) (body : list stmt) (n : Node) :
  In n (nodes (blockTree body)) -> p n = true ->
  existsb p (nodes (blockTree body)) = true.
Proof. intros Hin Hp. apply existsb_exists. eauto. Qed.

(* ================================================================== *)
(** ** The multi-case coordination gate *)

(** C3, as the specification words it, fails: [examples.Counter] has a
    select statement with two alternatives in its function body, after
    the go statement, and the counter it spawns is reported. *)
Lemma select_outside_task_reported :
  In (StmtNode (SelectStmt examples.Counter_select))
     (nodes (blockTree examples.Counter_body))
  /\ (2 <= List.length examples.Counter_select)%nat
  /\ diagnosticsOf (examples.single examples.Counter) examples.Counter
     = [mkDiagnostic 80 IDGenerator "atomic.AddInt64" "~38x" 95%float]
  /\ run (examples.single examples.Counter)
     = [mkDiagnostic 80 IDGenerator "atomic.AddInt64" "~38x" 95%float].
Proof.
  split; [in_list|].
  split; [vm_compute; lia|].
  split; vm_compute; reflexivity.
Qed.

(** C3, amended.  When the function literal spawned by a top-level go
    statement of a function contains, at any depth of its body, a select
    statement with two or more clauses, nothing is reported for the
    function. *)
Theorem select_in_task_silences (pass : Pass) (fn : funcDecl)
    (body : list stmt) (g : goStmt) (fl : ast.funcLit) (sel : list stmt) :
  FuncDecl_Body fn = Some body ->
  In (GoStmt g) body ->
  CallExpr_Fun (GoStmt_Call g) = FuncLit fl ->
  In (StmtNode (SelectStmt sel)) (nodes (blockTree (FuncLit_Body fl))) ->
  (2 <= List.length sel)%nat ->
  diagnosticsOf pass (FuncDecl fn) = [].
Proof.
  intros Hbody Hg Hfl Hsel Hlen. unfold diagnosticsOf.
  destruct (detectDecl pass (FuncDecl fn)) as [cp|] eqn:Hcp; [|reflexivity].
  destruct (detectDecl_inv _ _ _ Hcp)
    as (fn' & body' & results & go & [= <-] & Hbody' & _ & _ & Hgo & Hfun & _).
  rewrite Hbody in Hbody'. injection Hbody' as <-.
  apply In_topLevelGo in Hg. rewrite Hgo in Hg. destruct Hg as [->|[]].
  rewrite Hfl in Hfun. injection Hfun as ->.
  rewrite report_Unknown; [reflexivity|].
  apply classify_gated. left. rewrite containsMultiCaseSelect_nodes.
  apply (gate_finds _ _ _ Hsel). unfold isMultiCaseSelect.
  apply Nat.leb_le. exact Hlen.
Qed.

Lemma select_in_task_silences_witness :
  diagnosticsOf testdata.negative testdata.WorkerPool = [].
Proof.
  apply (select_in_task_silences testdata.negative testdata.WorkerPool_fn
           testdata.WorkerPool_body
           (testdata.spawn_ testdata.WorkerPool_task 242)
           (testdata.task_ testdata.WorkerPool_task 242)
           testdata.WorkerPool_select).
  - reflexivity.
  - in_list.
  - reflexivity.
  - in_list.
  - vm_compute. lia.
Defined.

(** C9.  A select statement with one communication clause and a default
    clause has two clauses: a task body that contains one trips the
    multi-case gate, the producer is classified (Unknown, 0) and nothing
    is reported for it. *)
Theorem default_clause_counts (pass : Pass) (cp : channelProducer)
    (sel : list stmt) (comm : stmt) (b1 b2 : list stmt) :
  In (StmtNode (SelectStmt sel))
     (nodes (blockTree (FuncLit_Body (funcLit cp)))) ->
  sel = [CommClause (Some comm) b1; CommClause None b2]
  \/ sel = [CommClause None b2; CommClause (Some comm) b1] ->
  containsMultiCaseSelect (FuncLit_Body (funcLit cp)) = true
  /\ classify cp pass = (Unknown, 0%float)
  /\ report pass cp = None.
Proof.
  intros Hin Hsel.
  assert (Hgate : containsMultiCaseSelect (FuncLit_Body (funcLit cp)) = true).
  { rewrite containsMultiCaseSelect_nodes. apply (gate_finds _ _ _ Hin).
    destruct Hsel as [-> | ->]; reflexivity. }
  assert (Hcl : classify cp pass = (Unknown, 0%float))
    by (apply classify_gated; auto).
  auto using report_Unknown.
Qed.

Lemma default_clause_counts_witness :
  detectDecl (examples.single examples.RateLimiter_fn)
             examples.RateLimiter_fn
  = Some examples.RateLimiter_producer
  /\ containsMultiCaseSelect
       (FuncLit_Body (funcLit examples.RateLimiter_producer)) = true
  /\ classify examples.RateLimiter_producer
              (examples.single examples.RateLimiter_fn)
     = (Unknown, 0%float)
  /\ report (examples.single examples.RateLimiter_fn)
            examples.RateLimiter_producer = None.
Proof.
  split; [vm_compute; reflexivity|].
  apply (default_clause_counts
           (examples.single examples.RateLimiter_fn)
           examples.RateLimiter_producer
           examples.RateLimiter_select examples.RateLimiter_comm [] []).
  - in_list.
  - left. reflexivity.
Defined.

(* ================================================================== *)
(** ** Range loops: the hasRange indicator and the pipeline-stage gate *)

Lemma extractIndicators_nodes body chanName pass :
  extractIndicators body chanName pass
  = fold_left (fun ind n =>
                 snd (extractIndicators_visit chanName pass (Some n) ind))
              (nodes (blockTree body)) indicators0.
Proof.
  unfold extractIndicators.
  apply (Inspect_every _
           (fun n ind => snd (extractIndicators_visit chanName pass
                                                       (Some n) ind)));
    reflexivity.
Qed.

Lemma hasRange_modulo (rhs : list expr) : forall ind,
  hasRange (fold_left (fun ind rhs =>
                         match rhs with
                         | BinaryExpr _ token.REM _ => set_hasModulo ind
                         | _ => ind
                         end) rhs ind)
  = hasRange ind.
Proof.
  induction rhs as [|e rhs IH]; intros ind; simpl; [reflexivity|].
  rewrite IH. destruct e; try reflexivity. destruct Op; reflexivity.
Qed.

Lemma hasRange_call chanName node ind :
  hasRange (indicators_call chanName node ind) = hasRange ind.
Proof.
  unfold indicators_call.
  repeat match goal with
         | |- context [match ?x with _ => _ end] => destruct x
         end; reflexivity.
Qed.

Lemma hasRange_visit chanName pass n ind :
  hasRange (snd (extractIndicators_visit chanName pass (Some n) ind))
  = hasRange ind || rangeSets pass n.
Proof.
  destruct n as [e|s| | | |]; simpl; try (now rewrite orb_false_r).
  - destruct e; simpl; try (now rewrite orb_false_r).
    now rewrite hasRange_call, orb_false_r.
  - destruct s; simpl; try (now rewrite orb_false_r).
    + destruct Tok; simpl; now rewrite orb_false_r.
    + now rewrite hasRange_modulo, orb_false_r.
    + destruct Cond; simpl; now rewrite orb_false_r.
    + destruct (types.Types (TypesInfo pass) X) as [tv|]; simpl.
      * destruct (types.isChan (types.Underlying tv)); simpl;
          [now rewrite orb_false_r | now rewrite orb_true_r].
      * now rewrite orb_true_r.
Qed.

(** [hasRange] is set exactly when some loop of the body sets it. *)
Lemma hasRange_nodes body chanName pass :
  hasRange (extractIndicators body chanName pass)
  = existsb (rangeSets pass) (nodes (blockTree body)).
Proof.
  rewrite extractIndicators_nodes.
  change (existsb (rangeSets pass) (nodes (blockTree body)))
    with (hasRange indicators0
          || existsb (rangeSets pass) (nodes (blockTree body))).
  generalize indicators0.
  induction (nodes (blockTree body)) as [|n l IH]; intros ind;
    cbn [fold_left existsb].
  - now rewrite orb_false_r.
  - rewrite IH, hasRange_visit. now rewrite orb_assoc.
Qed.

(** The loops that trip the pipeline-stage gate. *)
Lemma rangesChanIdent_true pass n :
  rangesChanIdent pass n = true <->
  exists k v id lb tv obj,
    n = StmtNode (RangeStmt k v (Ident id) lb)
    /\ types.Types (TypesInfo pass) (Ident id) = Some tv
    /\ types.isChan (types.Underlying tv) = true
    /\ types.ObjectOf (TypesInfo pass) id = Some obj.
Proof.
  split.
  - destruct n as [e|s| | | |]; try discriminate.
    destruct s as [| | | | | | | | | | | | | | | | | | | | k v x lb];
      try discriminate.
    destruct x; try discriminate. simpl.
    destruct (types.Types (TypesInfo pass) (Ident id)) as [tv|] eqn:Htv;
      [|discriminate].
    destruct (types.isChan (types.Underlying tv)) eqn:Hch; [|discriminate].
    destruct (types.ObjectOf (TypesInfo pass) id) as [obj|] eqn:Hobj;
      [|discriminate].
    intros _. exists k, v, id, lb, tv, obj. auto.
  - intros (k & v & id & lb & tv & obj & -> & Htv & Hch & Hobj). simpl.
    now rewrite Htv, Hch, Hobj.
Qed.

Lemma rangesOverChannel_true pass body :
  rangesOverChannel body pass = true <->
  exists k v id lb tv obj,
    In (StmtNode (RangeStmt k v (Ident id) lb)) (nodes (blockTree body))
    /\ types.Types (TypesInfo pass) (Ident id) = Some tv
    /\ types.isChan (types.Underlying tv) = true
    /\ types.ObjectOf (TypesInfo pass) id = Some obj.
Proof.
  rewrite rangesOverChannel_nodes, existsb_exists. split.
  - intros (n & Hin &
            (k & v & id & lb & tv & obj & -> & H)%rangesChanIdent_true).
    exists k, v, id, lb, tv, obj. auto.
  - intros (k & v & id & lb & tv & obj & Hin & H).
    exists (StmtNode (RangeStmt k v (Ident id) lb)). split; [exact Hin|].
    apply rangesChanIdent_true. exists k, v, id, lb, tv, obj. auto.
Qed.

(** C4, as the specification words it, fails: the task of
    [examples.Relay] ranges over [src], a channel it made itself, bound
    to a local variable; no loop of it ranges over a parameter, and the
    gate is tripped. *)
Lemma local_channel_trips_gate :
  rangesOverChannel examples.Relay_task examples.Relay_pass = true
  /\ existsb (rangesChanParam examples.Relay_pass)
             (nodes (blockTree examples.Relay_task)) = false
  /\ types.ObjectOf (TypesInfo examples.Relay_pass) (mkIdent 109 "src")
     = Some (types.Var types.LocalVar
               (types.Chan types.SendRecv (types.Basic "int")))
  /\ run examples.Relay_pass = [].
Proof. repeat split; vm_compute; reflexivity. Qed.

(** C4, amended.  The pipeline-stage gate returns true exactly when the
    task body contains a range loop whose iteration target is a bare
    identifier that has a type answer with a channel as underlying type
    and that is bound to some object, a parameter or not; a body whose
    range loops all iterate over something else than a bare identifier
    (a channel reached by field access, say) does not trip it. *)
Theorem pipeline_gate_bare_channel_ident (pass : Pass) (body : list stmt) :
  (rangesOverChannel body pass = true <->
   exists k v id lb tv obj,
     In (StmtNode (RangeStmt k v (Ident id) lb)) (nodes (blockTree body))
     /\ types.Types (TypesInfo pass) (Ident id) = Some tv
     /\ types.isChan (types.Underlying tv) = true
     /\ types.ObjectOf (TypesInfo pass) id = Some obj)
  /\ ((forall k v x lb,
         In (StmtNode (RangeStmt k v x lb)) (nodes (blockTree body)) ->
         forall id, x <> Ident id) ->
      rangesOverChannel body pass = false).
Proof.
  split; [apply rangesOverChannel_true|].
  intros Hsel. destruct (rangesOverChannel body pass) eqn:E; [|reflexivity].
  apply rangesOverChannel_true in E.
  destruct E as (k & v & id & lb & tv & obj & Hin & _).
  now destruct (Hsel _ _ _ _ Hin id).
Qed.

Lemma pipeline_gate_bare_channel_ident_witness :
  rangesOverChannel testdata.Square_task testdata.negative = true.
Proof.
  apply (proj1 (pipeline_gate_bare_channel_ident
                  testdata.negative testdata.Square_task)).
  exists (Some (testdata.id_ 550 "v")), None, (mkIdent 561 "in"),
    [ testdata.send_ (testdata.id_ 569 "out")
        (BinaryExpr (testdata.id_ 576 "v") token.MUL
                    (testdata.id_ 580 "v")) ],
    (types.Chan types.RecvOnly (types.Basic "int")),
    (types.Var types.ParamVar
       (types.Chan types.RecvOnly (types.Basic "int"))).
  split; [in_list|]. repeat split; vm_compute; reflexivity.
Defined.

(** C8.  When the type checker has no answer for the iteration target of
    a range loop of the task body, [hasRange] is set, and the loop does
    not trip the pipeline-stage gate: the gate's closure leaves [found]
    false at it, and a tripped gate comes from a loop whose target has a
    type answer. *)
Theorem missing_type_degrades (pass : Pass) (body : list stmt)
    (chanName : string) (k v : option expr) (x : expr) (lb : list stmt) :
  In (StmtNode (RangeStmt k v x lb)) (nodes (blockTree body)) ->
  types.Types (TypesInfo pass) x = None ->
  hasRange (extractIndicators body chanName pass) = true
  /\ snd (rangesOverChannel_visit pass
            (Some (StmtNode (RangeStmt k v x lb))) false) = false
  /\ (rangesOverChannel body pass = true ->
      exists k' v' id lb' tv,
        In (StmtNode (RangeStmt k' v' (Ident id) lb'))
           (nodes (blockTree body))
        /\ types.Types (TypesInfo pass) (Ident id) = Some tv
        /\ types.isChan (types.Underlying tv) = true).
Proof.
  intros Hin Hx. split; [|split].
  - rewrite hasRange_nodes. apply (gate_finds _ _ _ Hin). simpl.
    now rewrite Hx.
  - destruct x; try reflexivity. simpl. now rewrite Hx.
  - intros (k' & v' & id & lb' & tv & obj & H & Htv & Hch & _)
             %rangesOverChannel_true.
    exists k', v', id, lb', tv. auto.
Qed.

Lemma missing_type_degrades_witness :
  hasRange (extractIndicators testdata.Square_task "out"
              (examples.untyped testdata.Square)) = true
  /\ rangesOverChannel testdata.Square_task
       (examples.untyped testdata.Square) = false.
Proof.
  split.
  - apply (missing_type_degrades (examples.untyped testdata.Square)
             testdata.Square_task "out"
             (Some (testdata.id_ 550 "v")) None (testdata.id_ 561 "in")
             [ testdata.send_ (testdata.id_ 569 "out")
                 (BinaryExpr (testdata.id_ 576 "v") token.MUL
                             (testdata.id_ 580 "v")) ]);
      [in_list | reflexivity].
  - vm_compute. reflexivity.
Defined.

(* ================================================================== *)
(** ** The channel-creating assignment *)


(** The capacity loop on a string of decimal digits whose base-ten
    reading fits an [int] yields that reading. *)
Lemma parseBuf_decimal_aux (l : list Z) : forall acc,
  forallb isDigit l = true -> 0 <= acc ->
  fold_left (fun v c => v * 10 + (c - 48)) l acc < 2 ^ 63 ->
  fold_left (fun buf c => intWrap (buf * 10 + (c - 48))) l acc
  = fold_left (fun v c => v * 10 + (c - 48)) l acc
  /\ acc <= fold_left (fun v c => v * 10 + (c - 48)) l acc.
Proof.
  induction l as [|c l IH]; intros acc Hd Hacc Hlt; simpl in *.
  - split; [reflexivity | lia].
  - apply andb_true_iff in Hd. destruct Hd as [Hc Hl].
    unfold isDigit in Hc. apply andb_true_iff in Hc.
    destruct Hc as [Hc1%Z.leb_le Hc2%Z.leb_le].
    destruct (IH (acc * 10 + (c - 48)) Hl ltac:(lia) Hlt) as [_ Hle].
    assert (Hw : intWrap (acc * 10 + (c - 48)) = acc * 10 + (c - 48)).
    { unfold intWrap. rewrite Z.mod_small; lia. }
    rewrite Hw. destruct (IH (acc * 10 + (c - 48)) Hl ltac:(lia) Hlt).
    split; [assumption | lia].
Qed.

Lemma parseBuf_decimal (value : string) :
  forallb isDigit (runes value) = true ->
  decimalValue value < 2 ^ 63 ->
  parseBuf value = decimalValue value.
Proof.
  intros Hd Hlt. unfold parseBuf, decimalValue in *.
  now apply parseBuf_decimal_aux.
Qed.

(** The capacity [extractMakeChan] returns when there is no second
    argument or it is not an integer literal. *)
Lemma extractMakeChan_no_literal lhs tok f begin dir elt rest :
  match rest with
  | BasicLit lit :: _ =>
      match Kind lit with
      | token.INT => False
      | _ => True
      end
  | _ => True
  end ->
  match extractMakeChan
          (mkAssignStmt lhs tok
             [CallExpr (mkCallExpr f (ChanType begin dir elt :: rest))]) with
  | Some (_, _, buf) => buf = 0
  | None => True
  end.
Proof.
  intros Hrest. unfold extractMakeChan. simpl.
  destruct lhs as [|l0 [|]]; try exact I.
  destruct l0; try exact I. destruct f; try exact I.
  destruct (negb (String.eqb (Name id0) "make")); [exact I|].
  destruct rest as [|arg1 rest]; [reflexivity|].
  destruct arg1; try reflexivity.
  destruct (Kind lit); try reflexivity. contradiction.
Qed.

(** C7.  The buffer size of a producer is read by taking every
    character of an integer literal for a decimal digit, so it is not 0
    for an integer literal that is not decimal, and not the value of a
    decimal literal written with digit separators:
    [make(chan int, 0x10)] is given the buffer size 7210 (neither 0 nor
    16), the legacy octal [010] is read as 10 and [1_000] as 57000. *)
Theorem hex_capacity_misread :
  extractMakeChan examples.Hex_make = Some (mkIdent 40 "ch", 40, 7210)
  /\ option_map bufSize
       (detectDecl (examples.single examples.Hex) examples.Hex)
     = Some 7210
  /\ parseBuf "010" = 10
  /\ parseBuf "1_000" = 57000.
Proof. repeat split; vm_compute; reflexivity. Qed.

(** C5.  The statement loop of [detect] neither keeps the first valid
    channel-creating assignment nor rejects a function that has two,
    though its comment asks for exactly one channel: [examples.TwoChans]
    makes [a] with capacity 1, then [b] with capacity 2, and a producer is
    emitted that carries the name, position and capacity of [b], the
    second. *)
Theorem first_make_chan_not_kept :
  makeChans examples.TwoChans_body
  = [ (mkIdent 40 "a", 40, 1); (mkIdent 65 "b", 65, 2) ]
  /\ option_map (fun cp => (chanIdent cp, makePos cp, bufSize cp))
       (detectDecl (examples.single examples.TwoChans) examples.TwoChans)
     = Some (mkIdent 65 "b", 65, 2).
Proof. split; vm_compute; reflexivity. Qed.

(* ================================================================== *)
(** ** The anchor of a diagnostic *)




(* ================================================================== *)
(** ** Detection does not look at what is returned *)

Lemma fold_left_flat {A B : Type} (f : A -> list B) (l : list A) :
  forall acc,
    fold_left (fun out a => out ++ f a) l acc = acc ++ flat_map f l.
Proof.
  induction l as [|a l IH]; intros acc; simpl.
  - now rewrite app_nil_r.
  - now rewrite IH, app_assoc.
Qed.

Lemma collectSends_nodes fl chanName :
  collectSends fl chanName
  = flat_map (sendOn chanName) (nodes (funcLitTree fl)).
Proof.
  unfold collectSends.
  rewrite (Inspect_every _ (fun n sends => sends ++ sendOn chanName n)).
  - now rewrite fold_left_flat.
  - intros [e|s| | | |] sends; simpl; try (now rewrite app_nil_r).
    destruct s; simpl; try (now rewrite app_nil_r).
    destruct (SendStmt_Chan s); simpl; try (now rewrite app_nil_r).
    destruct (String.eqb (Name id) chanName); simpl;
      [reflexivity | now rewrite app_nil_r].
  - reflexivity.
Qed.

(** C10, as it is worded, fails: in [examples.Spare] the channel [a] is
    made by a top-level channel-creating assignment and sent on in the
    one spawned literal, but a second channel is made as well and no
    producer is emitted. *)
Lemma two_channels_no_producer :
  FuncDecl_Body examples.Spare = Some examples.Spare_body
  /\ FuncType_Results (FuncDecl_Type examples.Spare)
     = Some examples.Spare_results
  /\ returnsChan examples.Spare_results = true
  /\ topLevelGo examples.Spare_body = [examples.Spare_go]
  /\ CallExpr_Fun (GoStmt_Call examples.Spare_go)
     = FuncLit examples.Spare_task
  /\ In (AssignStmt examples.Spare_a) examples.Spare_body
  /\ extractMakeChan examples.Spare_a = Some (mkIdent 40 "a", 40, 0)
  /\ collectSends examples.Spare_task "a"
     = [mkSendStmt (Ident (mkIdent 92 "a"))
                   (BasicLit (mkBasicLit 97 token.INT "1"))]
  /\ List.length (makeChans examples.Spare_body) = 2%nat
  /\ detectDecl examples.Spare_pass (FuncDecl examples.Spare) = None
  /\ run examples.Spare_pass = [].
Proof.
  repeat split; try (vm_compute; reflexivity). in_list.
Qed.

(** C10, amended.  For every function whose result list has a channel
    type, with exactly one top-level go statement, of a function
    literal, and exactly one valid top-level channel-creating
    assignment, whose channel name is sent on inside the literal, a
    producer is emitted for that channel and that literal, whatever the
    return statements of the function return. *)
Theorem producer_whatever_is_returned (pass : Pass) (fn : funcDecl)
    (body : list stmt) (results : fieldList) (g : goStmt)
    (fl : ast.funcLit) (id : ident) (pos : token.Pos) (buf : Z)
    (snd_ : sendStmt) (cid : ident) :
  FuncDecl_Body fn = Some body ->
  FuncType_Results (FuncDecl_Type fn) = Some results ->
  returnsChan results = true ->
  topLevelGo body = [g] ->
  CallExpr_Fun (GoStmt_Call g) = FuncLit fl ->
  makeChans body = [(id, pos, buf)] ->
  In (StmtNode (SendStmt snd_)) (nodes (funcLitTree fl)) ->
  SendStmt_Chan snd_ = Ident cid ->
  Name cid = Name id ->
  exists cp,
    detectDecl pass (FuncDecl fn) = Some cp
    /\ funcLit cp = fl /\ chanIdent cp = id
    /\ makePos cp = pos /\ bufSize cp = buf
    /\ In snd_ (sends cp).
Proof.
  intros Hbody Hres Hret Hgo Hfl Hone Hin Hchan Hname.
  assert (Hsent : In snd_ (collectSends fl (Name id))).
  { rewrite collectSends_nodes. apply in_flat_map.
    exists (StmtNode (SendStmt snd_)). split; [exact Hin|].
    simpl. rewrite Hchan, Hname, String.eqb_refl. now left. }
  pose proof (scan_makeChans body scan0) as Hscan.
  rewrite Hone in Hscan. cbn [rev app] in Hscan.
  pose proof (scan_goStmts body scan0) as Hgos. simpl in Hgos.
  rewrite Hgo in Hgos.
  unfold detectDecl. rewrite Hbody, Hres, Hret. simpl.
  unfold scanChan in Hscan. injection Hscan as Hc Hp Hb.
  rewrite Hc, Hgos, Hfl.
  destruct (collectSends fl (Name id)) as [|s0 ss] eqn:Hsends;
    [contradiction|].
  simpl. eexists. split; [reflexivity|]. simpl.
  rewrite Hp, Hb. auto.
Qed.

Lemma producer_whatever_is_returned_witness :
  In (ReturnStmt [testdata.id_ 95 "nil"]) examples.Lost_body
  /\ exists cp,
       detectDecl (examples.single (FuncDecl examples.Lost))
                  (FuncDecl examples.Lost) = Some cp
       /\ funcLit cp = examples.Lost_task
       /\ chanIdent cp = mkIdent 40 "ch"
       /\ makePos cp = 40 /\ bufSize cp = 0
       /\ In examples.Lost_send (sends cp).
Proof.
  split; [in_list|].
  apply (producer_whatever_is_returned
           (examples.single (FuncDecl examples.Lost)) examples.Lost
           examples.Lost_body examples.Lost_results examples.Lost_go
           examples.Lost_task (mkIdent 40 "ch") 40 0
           examples.Lost_send (mkIdent 75 "ch"));
    try reflexivity.
  in_list.
Defined.

(* ================================================================== *)
(** ** More on the gates *)

(** X1.  The multi-case gate is true exactly when the task body
    contains, at some depth, a select statement with at least two
    clauses; a body whose select statements all have fewer does not trip
    it. *)
Theorem multi_case_gate_iff (body : list stmt) :
  containsMultiCaseSelect body = true <->
  exists sel,
    In (StmtNode (SelectStmt sel)) (nodes (blockTree body))
    /\ (2 <= List.length sel)%nat.
Proof.
  rewrite containsMultiCaseSelect_nodes, existsb_exists. split.
  - intros (n & Hin & Hn).
    destruct n as [e|s| | | |]; try discriminate.
    destruct s; try discriminate.
    exists Body. split; [exact Hin|]. now apply Nat.leb_le.
  - intros (sel & Hin & Hlen). exists (StmtNode (SelectStmt sel)).
    split; [exact Hin|]. now apply Nat.leb_le.
Qed.

(** X2.  The I/O gate is true exactly when the task body contains a
    call whose function is a selector on a bare identifier that the type
    checker binds to an imported package with path net, net/http, os, io
    or database/sql. *)
Theorem io_gate_iff (pass : Pass) (body : list stmt) :
  containsIO body pass = true <->
  exists x sel args path,
    In (ExprNode (CallExpr (mkCallExpr (SelectorExpr (Ident x) sel) args)))
       (nodes (blockTree body))
    /\ types.ObjectOf (TypesInfo pass) x = Some (types.PkgName path)
    /\ In path ["net"; "net/http"; "os"; "io"; "database/sql"].
Proof.
  assert (Hio : forall path,
             ioPkgs path = true
             <-> In path ["net"; "net/http"; "os"; "io"; "database/sql"]).
  { intros path. unfold ioPkgs. rewrite existsb_exists. split.
    - intros (q & Hq & E). apply String.eqb_eq in E. now subst.
    - intros H. exists path. split; [exact H | apply String.eqb_refl]. }
  rewrite containsIO_nodes, existsb_exists. split.
  - intros (n & Hin & Hn).
    destruct n as [e|s| | | |]; try discriminate.
    destruct e; try discriminate. destruct call as [f args].
    destruct f; try discriminate. destruct f; try discriminate.
    simpl in Hn.
    destruct (types.ObjectOf (TypesInfo pass) id) as [[]|] eqn:Hobj;
      try discriminate.
    exists id, Sel, args, imported. repeat split; auto. now apply Hio.
  - intros (x & sel & args & path & Hin & Hobj & Hpath).
    exists (ExprNode (CallExpr (mkCallExpr (SelectorExpr (Ident x) sel) args))).
    split; [exact Hin|]. simpl. rewrite Hobj. now apply Hio.
Qed.

(** A tripped I/O gate has found an identifier bound to a package. *)
Lemma containsIO_nodes_true pass body :
  containsIO body pass = true ->
  exists x path, types.ObjectOf (TypesInfo pass) x = Some (types.PkgName path).
Proof.
  rewrite containsIO_nodes, existsb_exists. intros (n & _ & Hn).
  destruct n as [e|s| | | |]; try discriminate.
  destruct e; try discriminate. destruct call as [f args].
  destruct f; try discriminate. destruct f; try discriminate.
  simpl in Hn.
  destruct (types.ObjectOf (TypesInfo pass) id) as [[]|] eqn:Hobj;
    try discriminate.
  eauto.
Qed.

(** The producer of a function is the function literal of its go
    statement. *)
Lemma detectDecl_spawned pass fn body g fl cp :
  FuncDecl_Body fn = Some body ->
  In (GoStmt g) body ->
  CallExpr_Fun (GoStmt_Call g) = FuncLit fl ->
  detectDecl pass (FuncDecl fn) = Some cp ->
  funcLit cp = fl.
Proof.
  intros Hbody Hg Hfl Hcp.
  destruct (detectDecl_inv _ _ _ Hcp)
    as (fn' & body' & results & go & [= <-] & Hbody' & _ & _ & Hgo & Hfun & _).
  rewrite Hbody in Hbody'. injection Hbody' as <-.
  apply In_topLevelGo in Hg. rewrite Hgo in Hg. destruct Hg as [->|[]].
  rewrite Hfl in Hfun. now injection Hfun.
Qed.

(** X3.  When the function literal spawned by a top-level go statement
    of a function trips the I/O gate or the pipeline-stage gate, nothing
    is reported for the function. *)
Theorem gated_task_silences (pass : Pass) (fn : funcDecl)
    (body : list stmt) (g : goStmt) (fl : ast.funcLit) :
  FuncDecl_Body fn = Some body ->
  In (GoStmt g) body ->
  CallExpr_Fun (GoStmt_Call g) = FuncLit fl ->
  containsIO (FuncLit_Body fl) pass = true
  \/ rangesOverChannel (FuncLit_Body fl) pass = true ->
  diagnosticsOf pass (FuncDecl fn) = [].
Proof.
  intros Hbody Hg Hfl Hgate. unfold diagnosticsOf.
  destruct (detectDecl pass (FuncDecl fn)) as [cp|] eqn:Hcp; [|reflexivity].
  rewrite <- (detectDecl_spawned _ _ _ _ _ _ Hbody Hg Hfl Hcp) in Hgate.
  rewrite report_Unknown; [reflexivity|].
  apply classify_gated. tauto.
Qed.

Lemma gated_task_silences_witness :
  diagnosticsOf testdata.negative testdata.Square = [].
Proof.
  apply (gated_task_silences testdata.negative more.Square_fn
           [ testdata.define_ (testdata.id_ 491 "out")
               (testdata.call_ (testdata.id_ 498 "make")
                  [testdata.chanOf 503 SEND_RECV (testdata.id_ 508 "int")]);
             testdata.go_ testdata.Square_task 515;
             ReturnStmt [testdata.id_ 601 "out"] ]
           (testdata.spawn_ testdata.Square_task 515)
           (testdata.task_ testdata.Square_task 515)).
  - reflexivity.
  - in_list.
  - reflexivity.
  - right. vm_compute. reflexivity.
Defined.

(** X4.  When the type checker binds no identifier, neither the I/O
    gate nor the pipeline-stage gate can be tripped, whatever the task
    body calls or ranges over. *)
Theorem unbound_identifiers_pass_gates (pass : Pass) (body : list stmt) :
  (forall id, types.ObjectOf (TypesInfo pass) id = None) ->
  containsIO body pass = false /\ rangesOverChannel body pass = false.
Proof.
  intros Hnone. split.
  - destruct (containsIO body pass) eqn:E; [|reflexivity].
    apply containsIO_nodes_true in E.
    destruct E as (x & path & Hobj). rewrite Hnone in Hobj. discriminate.
  - destruct (rangesOverChannel body pass) eqn:E; [|reflexivity].
    apply rangesOverChannel_true in E.
    destruct E as (k & v & id & lb & tv & obj & _ & _ & _ & Hobj).
    rewrite Hnone in Hobj. discriminate.
Qed.

Lemma unbound_identifiers_pass_gates_witness :
  containsIO testdata.Square_task (examples.untyped testdata.Square) = false
  /\ rangesOverChannel testdata.Square_task
       (examples.untyped testdata.Square) = false.
Proof.
  apply (unbound_identifiers_pass_gates
           (examples.untyped testdata.Square) testdata.Square_task).
  intros id. reflexivity.
Defined.

(* ================================================================== *)
(** ** The indicator vector *)

Lemma ior_false_r ind :
  ior ind (mkIndicators false false false false false false false false)
  = ind.
Proof.
  destruct ind. unfold ior. simpl. now rewrite !orb_false_r.
Qed.

Lemma modulo_fold (rhs : list expr) : forall ind,
  fold_left (fun ind rhs =>
               match rhs with
               | BinaryExpr _ token.REM _ => set_hasModulo ind
               | _ => ind
               end) rhs ind
  = if existsb isRem rhs then set_hasModulo ind else ind.
Proof.
  induction rhs as [|e rhs IH]; intros ind; simpl; [reflexivity|].
  rewrite IH.
  destruct e; simpl; try reflexivity.
  destruct Op; simpl; try reflexivity.
  destruct (existsb isRem rhs); reflexivity.
Qed.

Lemma indicators_call_flags chanName pass c ind :
  indicators_call chanName c ind
  = ior ind (flags chanName pass (ExprNode (CallExpr c))).
Proof.
  destruct ind as [a b c0 d e f g h]. destruct c as [fn args].
  unfold indicators_call, ior, flags. simpl.
  destruct fn; simpl; try (now rewrite !orb_false_r).
  - destruct args as [|a0 rest]; [|destruct a0; destruct rest]; simpl;
      destruct (String.eqb (Name id) "close"); simpl;
      try (now rewrite ?orb_false_r, ?orb_true_r).
    destruct (String.eqb (Name id0) chanName); simpl;
      now rewrite ?orb_false_r, ?orb_true_r.
  - destruct fn; simpl; try (now rewrite !orb_false_r).
    destruct (String.eqb (Name id) "time"); simpl;
      [|now rewrite !orb_false_r].
    destruct (String.eqb (Name Sel) "Sleep") eqn:Hs; simpl.
    + apply String.eqb_eq in Hs. rewrite Hs. simpl.
      now rewrite ?orb_false_r, ?orb_true_r.
    + destruct (String.eqb (Name Sel) "NewTicker"); simpl;
        [now rewrite ?orb_false_r, ?orb_true_r|].
      destruct (String.eqb (Name Sel) "Tick"); simpl;
        now rewrite ?orb_false_r, ?orb_true_r.
Qed.

(** The closure sets the indicators of the node and keeps the others. *)
Lemma visit_flags chanName pass n ind :
  snd (extractIndicators_visit chanName pass (Some n) ind)
  = ior ind (flags chanName pass n).
Proof.
  destruct n as [e|s| | | |]; try (symmetry; apply ior_false_r).
  - destruct e; try (symmetry; apply ior_false_r).
    + destruct ind. unfold ior, flags. simpl.
      now rewrite ?orb_false_r, ?orb_true_r.
    + apply indicators_call_flags.
  - destruct s; try (symmetry; apply ior_false_r).
    + destruct Tok; try (symmetry; apply ior_false_r).
      destruct ind. unfold ior, flags. simpl.
      now rewrite ?orb_false_r, ?orb_true_r.
    + simpl. rewrite modulo_fold. unfold ior, flags. simpl.
      destruct ind. simpl.
      destruct (existsb isRem (AssignStmt_Rhs s)); simpl;
        now rewrite ?orb_false_r, ?orb_true_r.
    + destruct Cond; try (symmetry; apply ior_false_r).
      destruct ind. unfold ior, flags. simpl.
      now rewrite ?orb_false_r, ?orb_true_r.
    + destruct ind. unfold ior, flags. simpl.
      destruct (types.Types (TypesInfo pass) X) as [tv|]; simpl.
      * destruct (types.isChan (types.Underlying tv)); simpl;
          now rewrite ?orb_false_r, ?orb_true_r.
      * now rewrite ?orb_false_r, ?orb_true_r.
Qed.

Lemma flags_fold chanName pass (l : list Node) : forall ind,
  fold_left (fun ind n =>
               snd (extractIndicators_visit chanName pass (Some n) ind))
            l ind
  = ior ind
      (mkIndicators (existsb incNode l) (existsb moduloNode l)
         (existsb indexNode l) (existsb (rangeSets pass) l)
         (existsb (closeNode chanName) l) (existsb (timeCall ["Sleep"]) l)
         (existsb (timeCall ["NewTicker"; "Tick"]) l)
         (existsb infiniteNode l)).
Proof.
  induction l as [|n l IH]; intros ind; cbn [fold_left existsb].
  - apply eq_sym, ior_false_r.
  - rewrite IH, visit_flags. destruct ind. unfold ior, flags.
    cbn [hasIncrement hasModulo hasIndexExpr hasRange hasClose hasTimeSleep
         hasTimeTicker infiniteLoop].
    now rewrite !orb_assoc.
Qed.

(** X5.  Each indicator is a search of the task body: it is true exactly
    when some node of the body, at any depth, sets it.  [hasIncrement]:
    an increment statement; [hasModulo]: an assignment one of whose
    right-hand sides is a remainder expression; [hasIndexExpr]: an index
    expression; [hasRange]: a range loop whose target has no type answer
    or a type that is not a channel; [hasClose]: a call of an identifier
    named close on the one argument that is an identifier named like the
    channel; [hasTimeSleep] and [hasTimeTicker]: a call of Sleep, or of
    NewTicker or Tick, selected on an identifier named time;
    [infiniteLoop]: a for statement without condition. *)
Theorem indicators_are_searches (body : list stmt) (chanName : string)
    (pass : Pass) :
  extractIndicators body chanName pass
  = mkIndicators
      (existsb incNode (nodes (blockTree body)))
      (existsb moduloNode (nodes (blockTree body)))
      (existsb indexNode (nodes (blockTree body)))
      (existsb (rangeSets pass) (nodes (blockTree body)))
      (existsb (closeNode chanName) (nodes (blockTree body)))
      (existsb (timeCall ["Sleep"]) (nodes (blockTree body)))
      (existsb (timeCall ["NewTicker"; "Tick"]) (nodes (blockTree body)))
      (existsb infiniteNode (nodes (blockTree body))).
Proof.
  rewrite extractIndicators_nodes, flags_fold. reflexivity.
Qed.

(* ================================================================== *)
(** ** When detect emits a producer, and what it holds *)

Lemma rev_last_inv {A : Type} (l r : list A) (x : A) :
  rev l = x :: r -> l = rev r ++ [x].
Proof.
  intros H. rewrite <- (rev_involutive l), H. reflexivity.
Qed.

(** X6.  [detect] emits a producer for a function declaration exactly
    when the function has a body and a result list with a channel type
    expression among its field types, exactly one top-level go
    statement, whose function is a function literal, at least one valid
    top-level channel-creating assignment, and at least one send on the
    name of the last of these in the literal.  The producer then holds
    that literal, the identifier, position and capacity of that last
    assignment, and the sends on its name. *)
Theorem detect_emits_iff (pass : Pass) (fn : funcDecl)
    (cp : channelProducer) :
  detectDecl pass (FuncDecl fn) = Some cp <->
  exists body results g fl earlier,
    FuncDecl_Body fn = Some body
    /\ FuncType_Results (FuncDecl_Type fn) = Some results
    /\ returnsChan results = true
    /\ topLevelGo body = [g]
    /\ CallExpr_Fun (GoStmt_Call g) = FuncLit fl
    /\ makeChans body = earlier ++ [(chanIdent cp, makePos cp, bufSize cp)]
    /\ collectSends fl (Name (chanIdent cp)) <> []
    /\ cp = mkChannelProducer (collectSends fl (Name (chanIdent cp))) fl
              (chanIdent cp) (chanTypeOf pass (chanIdent cp))
              (makePos cp) (bufSize cp).
Proof.
  unfold detectDecl, chanTypeOf. split.
  - destruct (FuncDecl_Body fn) as [body|]; [|discriminate].
    destruct (FuncType_Results (FuncDecl_Type fn)) as [results|];
      [|discriminate].
    destruct (returnsChan results) eqn:Hret; [|discriminate]. simpl.
    pose proof (scan_goStmts body scan0) as Hgo. simpl in Hgo.
    pose proof (scan_makeChans body scan0) as Hmk. unfold scanChan in Hmk.
    destruct (fold_left scanStmt body scan0) as [cv mp bs gs]. simpl in *.
    destruct cv as [chanVar|]; [|discriminate].
    destruct gs as [|go [|]]; try discriminate.
    destruct (CallExpr_Fun (GoStmt_Call go)) eqn:Hfun; try discriminate.
    destruct (collectSends fl (Name chanVar)) as [|s0 ss] eqn:Hsends;
      [discriminate|].
    simpl. intros [= <-]. simpl.
    destruct (rev (makeChans body)) as [|[[id pos] buf] r] eqn:Hrev;
      [discriminate|].
    injection Hmk as -> -> ->.
    exists body, results, go, fl, (rev r). rewrite Hsends.
    repeat split; auto.
    + now apply rev_last_inv.
    + discriminate.
  - intros (body & results & g & fl & earlier & -> & -> & -> & Hgo & Hfl
            & Hmk & Hsends & Hcp). simpl.
    pose proof (scan_goStmts body scan0) as Hgos. simpl in Hgos.
    pose proof (scan_makeChans body scan0) as Hscan. unfold scanChan in Hscan.
    rewrite Hmk, rev_app_distr in Hscan. simpl in Hscan.
    rewrite Hgo in Hgos.
    destruct (fold_left scanStmt body scan0) as [cv mp bs gs]. simpl in *.
    injection Hscan as -> -> ->. subst gs. rewrite Hfl.
    destruct (collectSends fl (Name (chanIdent cp))) as [|s0 ss];
      [now destruct Hsends|].
    simpl. now rewrite Hcp at 5.
Qed.

(** X7.  The send sites of a producer: [collectSends] keeps exactly the
    send statements of the function literal, at any depth, whose channel
    operand is a bare identifier with the given name. *)
Theorem collected_sends_iff (fl : ast.funcLit) (chanName : string)
    (s : sendStmt) :
  In s (collectSends fl chanName) <->
  In (StmtNode (SendStmt s)) (nodes (funcLitTree fl))
  /\ exists cid, SendStmt_Chan s = Ident cid /\ Name cid = chanName.
Proof.
  rewrite collectSends_nodes, in_flat_map. split.
  - intros (n & Hin & Hs). destruct n as [e|st| | | |]; try contradiction.
    destruct st; try contradiction. simpl in Hs.
    destruct (SendStmt_Chan s0) eqn:Hchan; try contradiction.
    destruct (String.eqb (Name id) chanName) eqn:Hname; [|contradiction].
    destruct Hs as [<-|[]]. split; [exact Hin|].
    exists id. split; [exact Hchan | now apply String.eqb_eq].
  - intros (Hin & cid & Hchan & Hname).
    exists (StmtNode (SendStmt s)). split; [exact Hin|].
    simpl. rewrite Hchan, Hname, String.eqb_refl. now left.
Qed.

(* ================================================================== *)
(** ** What run reports *)

Lemma diagnosticsOf_length pass d :
  (List.length (diagnosticsOf pass d)
   <= List.length match d with
                  | FuncDecl fn => [fn]
                  | _ => []
                  end)%nat.
Proof.
  unfold diagnosticsOf. destruct d as [| |fn]; [simpl; lia | simpl; lia |].
  destruct (detectDecl pass (FuncDecl fn)) as [cp|]; [|simpl; lia].
  destruct (report pass cp); simpl; lia.
Qed.

(** X8.  [run] reports in the order of the files and, within a file, of
    its declarations, at most one diagnostic per declaration and none
    for a declaration that is not a function: the diagnostics are never
    more than the function declarations of the pass. *)
Theorem run_one_per_function (pass : Pass) :
  run pass
  = flat_map (fun file => flat_map (diagnosticsOf pass) (Decls file))
             (Files pass)
  /\ (forall d, (List.length (diagnosticsOf pass d) <= 1)%nat)
  /\ (forall d, (forall fn, d <> FuncDecl fn) -> diagnosticsOf pass d = [])
  /\ (List.length (run pass)
      <= List.length (flat_map funcDecls (Files pass)))%nat.
Proof.
  split; [apply run_decls|]. split; [|split].
  - intros d. pose proof (diagnosticsOf_length pass d) as H.
    destruct d; cbn [List.length] in H; lia.
  - intros d Hd. pose proof (diagnosticsOf_length pass d) as H.
    destruct d as [| |fn]; cbn [List.length] in H.
    + destruct (diagnosticsOf pass BadDecl); [reflexivity|].
      cbn [List.length] in H. lia.
    + destruct (diagnosticsOf pass (GenDecl d)); [reflexivity|].
      cbn [List.length] in H. lia.
    + now destruct (Hd fn).
  - rewrite run_decls.
    induction (Files pass) as [|file files IH]; simpl; [lia|].
    rewrite !length_app.
    enough (List.length (flat_map (diagnosticsOf pass) (Decls file))
            <= List.length (funcDecls file))%nat by lia.
    unfold funcDecls.
    induction (Decls file) as [|d ds IHd]; simpl; [lia|].
    rewrite !length_app. pose proof (diagnosticsOf_length pass d). lia.
Qed.

(** X9.  Every diagnostic is one of six messages: its pattern is
    IDGenerator, RoundRobin, RateLimiter, BoundedIterator, Singleton or
    ChanTicker, with the replacement and speedup of that pattern in the
    registry and the percentage 95, 90, 78, 92, 70 or 80.
    ConfigBroadcaster, CircuitBreaker, ChanSemaphore and FixedFanIn are
    never reported. *)
Theorem reported_message (pass : Pass) (d : Diagnostic) :
  In d (run pass) ->
  In (Diag_Pattern d, Diag_Replacement d, Diag_Speedup d, Diag_Percent d)
     messages.
Proof.
  intros (file & cp & _ & _ & Hd)%In_run. unfold report in Hd.
  pose proof (classify_pairs cp pass) as Hpc.
  destruct (classify cp pass) as [pat conf].
  unfold cascadePairs in Hpc. simpl in Hpc.
  destruct Hpc as [E|[E|[E|[E|[E|[E|[E|[]]]]]]]];
    injection E as <- <-;
    vm_compute in Hd; try discriminate Hd;
    injection Hd as <-; vm_compute;
    repeat (first [left; reflexivity | right]).
Qed.

Lemma reported_message_witness :
  In (IDGenerator, "atomic.AddInt64", "~38x", 95%float) messages.
Proof.
  apply (reported_message testdata.positive
           (mkDiagnostic 79 IDGenerator "atomic.AddInt64" "~38x" 95%float)).
  rewrite run_positive. left. reflexivity.
Defined.

(** X10.  The registry has an entry for every pattern but Unknown, so
    [init] does not panic, and the replacement and speedup of a reported
    diagnostic are those of the registry entry of its pattern, never the
    empty strings of a missing entry. *)
Theorem registry_entry_reported (pass : Pass) :
  (forall p, Registry p = None <-> p = Unknown)
  /\ init_ = None
  /\ (forall d, In d (run pass) ->
        exists spec,
          Registry (Diag_Pattern d) = Some spec
          /\ Diag_Replacement d = Replacement spec
          /\ Diag_Speedup d = Speedup spec).
Proof.
  split; [|split].
  - intros p. split.
    + destruct p; simpl; intros H; try discriminate H. reflexivity.
    + now intros ->.
  - reflexivity.
  - intros d (file & cp & _ & _ & Hd)%In_run. unfold report in Hd.
    destruct (classify cp pass) as [pat conf].
    destruct (isUnknown pat || (conf <? 0.5)%float) eqn:E; [discriminate|].
    injection Hd as <-. simpl. unfold Registry_at.
    destruct pat; try discriminate E; simpl; eexists; eauto.
Qed.

(* ================================================================== *)
(** ** The capacity of a decimal literal *)

Lemma isDecimalLit_digits value :
  isDecimalLit value = true -> forallb isDigit (runes value) = true.
Proof.
  unfold isDecimalLit. destruct (runes value) as [|c [|d rest]].
  - discriminate.
  - simpl. intros ->. reflexivity.
  - intros H. apply andb_true_iff in H. destruct H as [Hc Hrest].
    apply andb_true_iff in Hc. destruct Hc as [H1%Z.leb_le H2].
    change (forallb isDigit (c :: d :: rest))
      with (isDigit c && forallb isDigit (d :: rest)).
    apply andb_true_iff. split; [|exact Hrest].
    unfold isDigit. apply andb_true_iff. split; [|exact H2].
    apply Z.leb_le. lia.
Qed.

(** X11.  For a single-target assignment, with any assignment token, of
    a call of an identifier named make whose first argument is a channel
    type and whose second is a decimal integer literal without digit
    separators (0, or a digit from 1 to 9 followed by decimal digits),
    with a value below 2^63, [extractMakeChan] succeeds with the target
    identifier, its position, and the value of the literal as buffer
    size. *)
Theorem decimal_capacity_read (id fn : ident) (tok : token.Token)
    (begin : token.Pos) (dir : ChanDir) (elt : expr) (lit : basicLit)
    (rest : list expr) :
  Name fn = "make" ->
  Kind lit = token.INT ->
  isDecimalLit (Value lit) = true ->
  decimalValue (Value lit) < 2 ^ 63 ->
  extractMakeChan
    (mkAssignStmt [Ident id] tok
       [CallExpr (mkCallExpr (Ident fn)
                    (ChanType begin dir elt :: BasicLit lit :: rest))])
  = Some (id, NamePos id, decimalValue (Value lit)).
Proof.
  intros Hfn Hkind Hdec Hlt. unfold extractMakeChan, AssignStmt_Pos.
  simpl. rewrite Hfn, Hkind. simpl.
  rewrite parseBuf_decimal; auto using isDecimalLit_digits.
Qed.

Lemma decimal_capacity_read_witness :
  extractMakeChan more.buffered = Some (mkIdent 40 "ch", 40, 64).
Proof.
  apply (decimal_capacity_read (mkIdent 40 "ch") (mkIdent 46 "make")
           token.DEFINE 51 SEND_RECV (testdata.id_ 56 "int")
           more.buffered_lit []);
    try reflexivity.
Defined.

(* ================================================================== *)
(** ** The names of the patterns *)

(** X12.  [String] gives each of the eleven pattern constants its own
    name, distinct from the others, gives Unknown for every value above
    the last constant, and is defined on every value that is not
    negative; on a negative value the index is out of range. *)
Theorem pattern_names (z : Z) :
  (forall p, Pattern_String (Pattern_int p) = Some (patternNames p))
  /\ (forall p q, patternNames p = patternNames q -> p = q)
  /\ (10 < z -> Pattern_String z = Some "Unknown")
  /\ (0 <= z -> Pattern_String z <> None)
  /\ (z < 0 -> Pattern_String z = None).
Proof.
  split; [|split; [|split; [|split]]].
  - intros p. destruct p; reflexivity.
  - intros p q. destruct p, q; simpl; intros H;
      first [reflexivity | discriminate H].
  - intros Hz. unfold Pattern_String. simpl.
    destruct (z <? 11) eqn:E; [apply Z.ltb_lt in E; lia | reflexivity].
  - intros Hz. unfold Pattern_String. simpl.
    destruct (z <? 11) eqn:E; [|discriminate].
    apply Z.ltb_lt in E.
    destruct (z <? 0) eqn:E0; [apply Z.ltb_lt in E0; lia|].
    apply nth_error_Some. simpl. lia.
  - intros Hz. unfold Pattern_String. simpl.
    destruct (z <? 11) eqn:E; [|apply Z.ltb_ge in E; lia].
    destruct (z <? 0) eqn:E0; [reflexivity | apply Z.ltb_ge in E0; lia].
Qed.

(* ================================================================== *)
(** ** What a classification rests on *)

(** X13.  A pattern other than Unknown is returned only for a task body
    that trips no gate and that contains what the pattern is named for:
    BoundedIterator a range loop that sets hasRange and a close of the
    channel; RoundRobin a remainder assignment, an index expression and a
    for statement without condition; IDGenerator an increment statement
    and a for statement without condition, and no call of time.Sleep;
    RateLimiter a call of time.NewTicker or time.Tick; ChanTicker a call
    of time.Sleep and a for statement without condition; Singleton
    exactly one send site, no for statement without condition and no
    range loop that sets hasRange. *)
Theorem pattern_evidence (cp : channelProducer) (pass : Pass) :
  let body := FuncLit_Body (funcLit cp) in
  let ns := nodes (blockTree body) in
  fst (classify cp pass) <> Unknown ->
  (existsb isMultiCaseSelect ns = false
   /\ existsb (callsIO pass) ns = false
   /\ existsb (rangesChanIdent pass) ns = false)
  /\ match fst (classify cp pass) with
     | BoundedIterator =>
         existsb (rangeSets pass) ns = true
         /\ existsb (closeNode (Name (chanIdent cp))) ns = true
     | RoundRobin =>
         existsb moduloNode ns = true /\ existsb indexNode ns = true
         /\ existsb infiniteNode ns = true
     | IDGenerator =>
         existsb incNode ns = true /\ existsb infiniteNode ns = true
         /\ existsb (timeCall ["Sleep"]) ns = false
     | RateLimiter => existsb (timeCall ["NewTicker"; "Tick"]) ns = true
     | ChanTicker =>
         existsb (timeCall ["Sleep"]) ns = true
         /\ existsb infiniteNode ns = true
     | Singleton =>
         List.length (sends cp) = 1%nat
         /\ existsb infiniteNode ns = false
         /\ existsb (rangeSets pass) ns = false
     | _ => True
     end.
Proof.
  intros body ns. unfold classify. fold body.
  rewrite containsMultiCaseSelect_nodes, containsIO_nodes,
    rangesOverChannel_nodes, extractIndicators_nodes, flags_fold.
  fold ns. clearbody ns. unfold ior. simpl.
  destruct (existsb isMultiCaseSelect ns);
    [intros H; exfalso; apply H; reflexivity|].
  destruct (existsb (callsIO pass) ns);
    [intros H; exfalso; apply H; reflexivity|].
  destruct (existsb (rangesChanIdent pass) ns);
    [intros H; exfalso; apply H; reflexivity|].
  destruct (existsb (rangeSets pass) ns),
    (existsb (closeNode (Name (chanIdent cp))) ns),
    (existsb moduloNode ns), (existsb indexNode ns),
    (existsb infiniteNode ns), (existsb incNode ns),
    (existsb (timeCall ["Sleep"]) ns),
    (existsb (timeCall ["NewTicker"; "Tick"]) ns);
    simpl; try (intros _; now auto);
    destruct (List.length (sends cp) =? 1)%nat eqn:E; simpl;
    try (intros H; exfalso; apply H; reflexivity); intros _;
    apply Nat.eqb_eq in E; auto.
Qed.

Lemma pattern_evidence_witness :
  existsb incNode
    (nodes (blockTree (FuncLit_Body (funcLit examples.NewIDGenerator_producer))))
  = true.
Proof.
  assert (H := pattern_evidence examples.NewIDGenerator_producer
                 testdata.positive).
  cbv zeta in H.
  assert (E : fst (classify examples.NewIDGenerator_producer
                            testdata.positive) = IDGenerator)
    by (vm_compute; reflexivity).
  rewrite E in H.
  exact (proj1 (proj2 (H ltac:(discriminate)))).
Defined.
